(** * Registration intake service (index.js): model and verified properties

    The service is a small Express application.  This development embeds
    the parts of [index.js] that decide the behaviour of the two data
    endpoints,

      - [POST /api/register]  (validateRegistration, then the async handler)
      - [GET /api/registration/:ticketId]

    together with the helpers they call ([generateShortTicketId],
    [uploadToImgBB], [appendToGoogleSheets]).  Strings are sequences of
    UTF-16 code units, JavaScript objects are finite maps from property
    names to values, and everything the handlers do to the outside world
    (MongoDB, ImgBB, Google Sheets, the clock, the console, the immediate
    queue) goes through a state-and-exception monad. *)

From Stdlib Require Import ZArith NArith List Bool Ascii String Lia.
From stdpp Require Import base option list strings gmap pretty.

Local Open Scope N_scope.

(** ** JavaScript strings *)

(** A JavaScript string is a finite sequence of 16-bit code units. *)
Definition jsstring := list N.

(** String literals of the source are ASCII (apart from the pictographs in
    console messages, which are not modelled as text). *)
Definition lit (s : string) : jsstring :=
  map N_of_ascii (list_ascii_of_string s).

(** A word between double quotes (code unit 34), as in the messages of the
    validator. *)
Definition quoted (s : string) : jsstring := [34] ++ lit s ++ [34].

Definition jsstring_eqb (a b : jsstring) : bool :=
  bool_decide (a = b).

(** [Array.prototype.includes] on an array of strings. *)
Definition includes (l : list jsstring) (s : jsstring) : bool :=
  existsb (jsstring_eqb s) l.

(** WhiteSpace and LineTerminator code units of ECMAScript: the set that
    [String.prototype.trim] strips and that [\s] matches. *)
Definition isWhiteSpace (c : N) : bool :=
  (c =? 0x09) || (c =? 0x0A) || (c =? 0x0B) || (c =? 0x0C) || (c =? 0x0D)
  || (c =? 0x20) || (c =? 0xA0) || (c =? 0x1680)
  || ((0x2000 <=? c) && (c <=? 0x200A))
  || (c =? 0x2028) || (c =? 0x2029) || (c =? 0x202F) || (c =? 0x205F)
  || (c =? 0x3000) || (c =? 0xFEFF).

Fixpoint trimStart (s : jsstring) : jsstring :=
  match s with
  | c :: s' => if isWhiteSpace c then trimStart s' else s
  | [] => []
  end.

Definition trimEnd (s : jsstring) : jsstring := rev (trimStart (rev s)).

(** [String.prototype.trim]. *)
Definition trim (s : jsstring) : jsstring := trimEnd (trimStart s).

(** [String.prototype.split] with a one-character separator: the pieces
    between the separators, always at least one piece. *)
Fixpoint split (sep : N) (s : jsstring) : list jsstring :=
  match s with
  | [] => [[]]
  | c :: s' =>
      if c =? sep then [] :: split sep s'
      else match split sep s' with
           | piece :: rest => (c :: piece) :: rest
           | [] => [[c]]
           end
  end.

(** ** Regular expressions

    The two patterns of the validator use only literal characters,
    character classes, concatenation and bounded or unbounded repetition,
    and both are anchored at [^] and [$]; [RegExp.prototype.test] then
    decides whether the whole string is in the language of the pattern.
    Matching is by derivatives. *)
Inductive regex :=
| Void
| Eps
| Class (p : N -> bool)
| Seq (r1 r2 : regex)
| Alt (r1 r2 : regex)
| Star (r : regex).

Definition Chr (a : ascii) : regex := Class (N.eqb (N_of_ascii a)).
Definition Range (a b : ascii) : regex :=
  Class (fun c => (N_of_ascii a <=? c) && (c <=? N_of_ascii b)).
Definition Plus (r : regex) : regex := Seq r (Star r).
Fixpoint Repeat (n : nat) (r : regex) : regex :=
  match n with
  | O => Eps
  | S n' => Seq r (Repeat n' r)
  end.

Fixpoint nullable (r : regex) : bool :=
  match r with
  | Void => false
  | Eps => true
  | Class _ => false
  | Seq r1 r2 => nullable r1 && nullable r2
  | Alt r1 r2 => nullable r1 || nullable r2
  | Star _ => true
  end.

Fixpoint deriv (c : N) (r : regex) : regex :=
  match r with
  | Void => Void
  | Eps => Void
  | Class p => if p c then Eps else Void
  | Seq r1 r2 =>
      if nullable r1 then Alt (Seq (deriv c r1) r2) (deriv c r2)
      else Seq (deriv c r1) r2
  | Alt r1 r2 => Alt (deriv c r1) (deriv c r2)
  | Star r1 => Seq (deriv c r1) (Star r1)
  end.

(** [regex.test(s)] for a pattern anchored at both ends. *)
Fixpoint test (r : regex) (s : jsstring) : bool :=
  match s with
  | [] => nullable r
  | c :: s' => test (deriv c r) s'
  end.

(** [[^\s@]] *)
Definition notSpaceAt : regex :=
  Class (fun c => negb (isWhiteSpace c || (c =? N_of_ascii "@"))).

(** [\d] (without the unicode flag: the ten ASCII digits). *)
Definition digit : regex := Range "0" "9".

(** [/^[^\s@]+@[^\s@]+\.[^\s@]+$/] *)
Definition emailRegex : regex :=
  Seq (Plus notSpaceAt)
    (Seq (Chr "@") (Seq (Plus notSpaceAt) (Seq (Chr ".") (Plus notSpaceAt)))).

(** [/^\+91[6-9]\d{9}$/] *)
Definition phoneRegex : regex :=
  Seq (Chr "+") (Seq (Chr "9") (Seq (Chr "1")
    (Seq (Range "6" "9") (Repeat 9 digit)))).

(** ** Ticket identifiers *)

(** [generateShortTicketId]: [uuid.split('-')[0]] spliced into the template
    [`THM-${shortId}`]; an undefined element would print as "undefined". *)
Definition generateShortTicketId (uuid : jsstring) : jsstring :=
  let shortId := split (N_of_ascii "-") uuid !! 0%nat in
  lit "THM-" ++ match shortId with
                | Some piece => piece
                | None => lit "undefined"
                end.

(** The textual form of what [uuidv4()] returns: 8-4-4-4-12 lower-case
    hexadecimal digits, version digit 4, variant digit 8, 9, a or b. *)
Definition isLowerHex (c : N) : bool :=
  ((N_of_ascii "0" <=? c) && (c <=? N_of_ascii "9"))
  || ((N_of_ascii "a" <=? c) && (c <=? N_of_ascii "f")).

Definition isHyphen (c : N) : bool := c =? N_of_ascii "-".

Definition slice (from to : nat) (s : jsstring) : jsstring :=
  firstn (to - from) (skipn from s).

Definition isUuidV4 (u : jsstring) : bool :=
  (length u =? 36)%nat
  && forallb isLowerHex (slice 0 8 u) && forallb isHyphen (slice 8 9 u)
  && forallb isLowerHex (slice 9 13 u) && forallb isHyphen (slice 13 14 u)
  && bool_decide (slice 14 15 u = lit "4")
  && forallb isLowerHex (slice 15 18 u) && forallb isHyphen (slice 18 19 u)
  && includes [lit "8"; lit "9"; lit "a"; lit "b"] (slice 19 20 u)
  && forallb isLowerHex (slice 20 23 u) && forallb isHyphen (slice 23 24 u)
  && forallb isLowerHex (slice 24 36 u).

(** ** JavaScript values and objects *)

Inductive value :=
| VUndefined
| VNull
| VBool (b : bool)
| VStr (s : jsstring)
| VDate (t : Z)        (* a Date, as milliseconds since the epoch *)
| VObjectId (n : N).   (* a MongoDB ObjectId *)

Global Instance value_eq_dec : EqDecision value.
Proof. solve_decision. Defined.

(** Plain objects whose properties hold values: the registration document
    and the [data] member of the JSON replies. *)
Abbreviation document := (gmap string value).

(** Property read [o.k]: undefined when the property is missing. *)
Definition prop (o : document) (k : string) : value :=
  default VUndefined (o !! k).

Definition truthy (v : value) : bool :=
  match v with
  | VUndefined | VNull => false
  | VBool b => b
  | VStr s => negb (bool_decide (s = []))
  | VDate _ | VObjectId _ => true
  end.

(** [a || b] on values. *)
Definition js_or (a b : value) : value := if truthy a then a else b.

(** [a === b] on primitive values. *)
Definition strict_eq (a b : value) : bool := bool_decide (a = b).

(** An optional text field read from [req.body] or [process.env]. *)
Definition of_field (x : option jsstring) : value :=
  match x with
  | Some s => VStr s
  | None => VUndefined
  end.

(** Error objects: [message], and the numeric [code] MongoDB errors carry. *)
Record js_error := JsError { err_message : jsstring; err_code : option Z }.

Definition Error (m : jsstring) : js_error := JsError m None.

Definition TypeError_undefined (method : string) : js_error :=
  Error (lit "Cannot read properties of undefined (reading '"
         ++ lit method ++ lit "')").

Definition TypeError_not_a_function (method : string) : js_error :=
  Error (lit method ++ lit " is not a function").

(** ** Requests and replies *)

(** The uploaded file as [multer]'s memory storage exposes it. *)
Record file := File { buffer : list N; mimetype : jsstring }.

(** [req.body] of a multipart submission: every text part arrives as a
    string, and a part that was not sent is undefined.  [agreeToTerms] is
    compared with both [true] and ['true'] by the code and is kept as a
    value. *)
Record body := Body {
  fullName : option jsstring;
  email : option jsstring;
  phone : option jsstring;
  college : option jsstring;
  branch : option jsstring;
  year : option jsstring;
  gender : option jsstring;
  accommodation : option jsstring;
  foodPreference : option jsstring;
  ieeeStatus : option jsstring;
  ieeeMembershipId : option jsstring;
  ticketType : option jsstring;
  agreeToTerms : value
}.

(** The request as it reaches [validateRegistration], that is after the
    rate limiter and [upload.single] have let it through. *)
Record request := Request { req_body : body; req_file : option file }.

(** [res.status(n).json({success, message, errors, error, data})]. *)
Record response := Response {
  status : Z;
  success : bool;
  message : option jsstring;
  errors : option (list jsstring);
  error : option jsstring;
  data : option document
}.

(** ** The world outside the process *)

(** MongoDB filters used by the service. *)
Inductive query :=
| QEq (field : string) (v : value)
| QOr (q1 q2 : query).

Fixpoint matches_query (q : query) (d : document) : bool :=
  match q with
  | QEq field v => strict_eq (prop d field) v
  | QOr q1 q2 => matches_query q1 d || matches_query q2 d
  end.

(** Calls that leave the process, in the order they are issued. *)
Inductive call :=
| CallFindOne (q : query)
| CallInsertOne (doc : document)
| CallUuidv4
| CallImgBB (image : list N) (name : jsstring)
| CallSheetsAppend (spreadsheetId range : value) (row : list value).

(** Console lines, one constructor per message template of the source. *)
Inductive log_message :=
| MsgAttempt (email : option jsstring)
| MsgDuplicate (email : option jsstring)
| MsgTicketIds (full short : jsstring)
| MsgUploading
| MsgUploaded (url : jsstring)
| MsgSuccess (email : option jsstring) (processingTime : Z)
| MsgRegistrationError (m : jsstring)
| MsgImgBBError (m : jsstring)
| MsgSheetsSkip
| MsgSheetsSynced (short : value)
| MsgSheetsError (short : value) (m : jsstring)
| MsgFetchError (m : jsstring).

Inductive log_entry :=
| ConsoleLog (m : log_message)      (* console.log: standard output *)
| ConsoleError (m : log_message).   (* console.error: standard error *)

(** [response.data] of the ImgBB reply. *)
Record imgbb_body := ImgbbBody {
  ib_success : bool;
  ib_data : option (jsstring * jsstring)   (* data.url, data.delete_url *)
}.

Inductive axios_result :=
| AxiosReject (e : js_error)                 (* no reply, or a non-2xx status *)
| AxiosResolve (data : option imgbb_body).

(** How the outside answers during one request and the immediates it
    queues. *)
Record env := Env {
  clock : nat -> Z;                     (* successive readings of the clock *)
  next_uuid : jsstring;                 (* what uuidv4() returns *)
  imgbb : axios_result;                 (* how the POST to ImgBB ends *)
  findOne_fault : option js_error;      (* findOne rejects *)
  insertOne_fault : option js_error;    (* insertOne rejects, index apart *)
  next_objectId : N;                    (* the _id the driver assigns *)
  sheets : bool;                        (* initializeGoogleSheets set [sheets] *)
  GOOGLE_SHEET_ID : option jsstring;
  GOOGLE_SHEET_RANGE : option jsstring;
  sheets_fault : option js_error        (* values.append rejects *)
}.

Record world := World {
  tickets : list document;    (* the thm25.tickets collection, oldest first *)
  calls : list call;          (* calls issued so far, oldest first *)
  console : list log_entry;   (* lines printed so far, oldest first *)
  ticks : nat;                (* clock readings taken so far *)
  immediates : list document  (* registrationData of the queued callbacks *)
}.

(** ** The monad of handlers: environment, state and exceptions *)

Inductive result (A : Type) :=
| Ok (a : A)
| Throw (e : js_error).
Arguments Ok {A} a.
Arguments Throw {A} e.

Definition M (A : Type) : Type := env -> world -> result A * world.

Definition ret {A} (a : A) : M A := fun _ w => (Ok a, w).

Definition throw {A} (e : js_error) : M A := fun _ w => (Throw e, w).

Definition bind {A B} (m : M A) (k : A -> M B) : M B :=
  fun e w =>
    match m e w with
    | (Ok a, w') => k a e w'
    | (Throw err, w') => (Throw err, w')
    end.

(** [try { m } catch (error) { h error }] *)
Definition try_catch {A} (m : M A) (h : js_error -> M A) : M A :=
  fun e w =>
    match m e w with
    | (Ok a, w') => (Ok a, w')
    | (Throw err, w') => h err e w'
    end.

Declare Scope js_scope.
Delimit Scope js_scope with js.
Notation "'let*' x ':=' m 'in' k" := (bind m (fun x => k))
  (at level 10, x name, m at level 100, k at level 200) : js_scope.
Notation "m '>>' k" := (bind m (fun _ => k))
  (at level 100, k at level 200, right associativity) : js_scope.
Local Open Scope js_scope.

Definition ask : M env := fun e w => (Ok e, w).

Definition record_call (c : call) (w : world) : world :=
  World (tickets w) (calls w ++ [c]) (console w) (ticks w) (immediates w).

Definition print (l : log_entry) : M unit :=
  fun _ w =>
    (Ok tt, World (tickets w) (calls w) (console w ++ [l]) (ticks w)
              (immediates w)).

Definition console_log (m : log_message) : M unit := print (ConsoleLog m).
Definition console_error (m : log_message) : M unit := print (ConsoleError m).

(** [Date.now()] and [new Date()]: one reading of the clock each. *)
Definition Date_now : M Z :=
  fun e w =>
    (Ok (clock e (ticks w)),
     World (tickets w) (calls w) (console w) (S (ticks w)) (immediates w)).

Definition uuidv4 : M jsstring :=
  fun e w => (Ok (next_uuid e), record_call CallUuidv4 w).

(** [registrationsCollection.findOne(q)]: the first document, in natural
    order, that satisfies the filter. *)
Definition findOne (q : query) : M (option document) :=
  fun e w =>
    let w' := record_call (CallFindOne q) w in
    match findOne_fault e with
    | Some err => (Throw err, w')
    | None => (Ok (List.find (matches_query q) (tickets w)), w')
    end.

(** The three unique indexes [connectDB] creates. *)
Definition unique_fields : list string :=
  ["email"; "ticketId"; "shortTicketId"]%string.

Definition clashes (d d' : document) : bool :=
  existsb (fun k => strict_eq (prop d k) (prop d' k)) unique_fields.

Definition duplicate_key_error : js_error :=
  JsError (lit "E11000 duplicate key error") (Some 11000%Z).

(** [registrationsCollection.insertOne(doc)]: rejected with code 11000 when
    a unique index is violated; otherwise the driver adds [_id] to the
    object it was given and the document is stored.  The object is
    returned so that later uses of the same object see [_id]. *)
Definition insertOne (doc : document) : M document :=
  fun e w =>
    let w' := record_call (CallInsertOne doc) w in
    match insertOne_fault e with
    | Some err => (Throw err, w')
    | None =>
        if existsb (clashes doc) (tickets w) then (Throw duplicate_key_error, w')
        else
          let stored := <["_id"%string := VObjectId (next_objectId e)]> doc in
          (Ok stored,
           World (tickets w' ++ [stored]) (calls w') (console w') (ticks w')
             (immediates w'))
    end.

(** [axios.post] to the ImgBB upload URL; resolves to [response.data]. *)
Definition axios_post (image : list N) (name : jsstring)
  : M (option imgbb_body) :=
  fun e w =>
    let w' := record_call (CallImgBB image name) w in
    match imgbb e with
    | AxiosReject err => (Throw err, w')
    | AxiosResolve d => (Ok d, w')
    end.

(** [sheets.spreadsheets.values.append] with one row. *)
Definition sheets_append (spreadsheetId range : value) (row : list value)
  : M unit :=
  fun e w =>
    let w' := record_call (CallSheetsAppend spreadsheetId range row) w in
    match sheets_fault e with
    | Some err => (Throw err, w')
    | None => (Ok tt, w')
    end.

(** [setImmediate(callback)]: the callback is queued, not run. *)
Definition setImmediate (registrationData : document) : M unit :=
  fun _ w =>
    (Ok tt,
     World (tickets w) (calls w) (console w) (ticks w)
       (immediates w ++ [registrationData])).

(** A method call on a text field: a TypeError when it is undefined. *)
Definition method {A} (recv : option jsstring) (name : string)
  (f : jsstring -> A) : M A :=
  match recv with
  | Some s => ret (f s)
  | None => throw (TypeError_undefined name)
  end.

(** ** The service *)

Section Service.

(** [String.prototype.toLowerCase] and [Date.prototype.toISOString] are
    built-ins of the runtime; the service is modelled over them. *)
Variable toLowerCase : jsstring -> jsstring.
Variable toISOString : Z -> jsstring.

(** *** validateRegistration *)

(** [!x || violated(x)] for a text field: the empty string is falsy. *)
Definition missing_or (x : option jsstring) (violated : jsstring -> bool)
  : bool :=
  negb (truthy (of_field x))
  || match x with
     | Some s => violated s
     | None => true
     end.

(** [errors.push(m)] under [if (c)]. *)
Definition push_if (c : bool) (m : jsstring) (errors : list jsstring)
  : list jsstring :=
  if c then errors ++ [m] else errors.

(** The [errors] array at the end of [validateRegistration]. *)
Definition validation_errors (req : request) : list jsstring :=
  let b := req_body req in
  let errors := [] in
  let errors :=
    push_if (missing_or (fullName b) (fun s => (length (trim s) <? 2)%nat))
      (lit "Full name must be at least 2 characters long") errors in
  let errors :=
    push_if (missing_or (email b) (fun s => negb (test emailRegex s)))
      (lit "Valid email address is required") errors in
  let errors :=
    push_if (missing_or (phone b) (fun s => negb (test phoneRegex s)))
      (lit "Phone number must be in format: +91XXXXXXXXXX") errors in
  let errors :=
    push_if (missing_or (college b) (fun s => (length (trim s) <? 2)%nat))
      (lit "College name is required") errors in
  let errors :=
    push_if (missing_or (branch b) (fun s => (length (trim s) <? 2)%nat))
      (lit "Branch is required") errors in
  let errors :=
    push_if (missing_or (year b)
               (fun s => negb (includes [lit "1"; lit "2"; lit "3"; lit "4"] s)))
      (lit "Year must be 1, 2, 3, or 4") errors in
  let errors :=
    push_if (missing_or (gender b)
               (fun s => negb (includes [lit "male"; lit "female"; lit "other"]
                                 (toLowerCase s))))
      (lit "Gender must be " ++ quoted "male" ++ lit ", " ++ quoted "female"
       ++ lit ", or " ++ quoted "other") errors in
  let errors :=
    push_if (missing_or (accommodation b)
               (fun s => negb (includes [lit "yes"; lit "no"] s)))
      (lit "Accommodation must be " ++ quoted "yes" ++ lit " or " ++ quoted "no") errors in
  let errors :=
    push_if (missing_or (foodPreference b)
               (fun s => negb (includes [lit "veg"; lit "non-veg"] s)))
      (lit "Food preference must be " ++ quoted "veg" ++ lit " or "
       ++ quoted "non-veg") errors in
  let errors :=
    push_if (missing_or (ieeeStatus b)
               (fun s => negb (includes [lit "member"; lit "non-member"] s)))
      (lit "IEEE status must be " ++ quoted "member" ++ lit " or "
       ++ quoted "non-member") errors in
  let errors :=
    push_if (strict_eq (of_field (ieeeStatus b)) (VStr (lit "member"))
             && missing_or (ieeeMembershipId b)
                  (fun s => (length (trim s) <? 5)%nat))
      (lit "IEEE Membership ID is required for IEEE members") errors in
  let errors :=
    push_if (missing_or (ticketType b)
               (fun s => negb (includes [lit "ieee"; lit "non-ieee"] s)))
      (lit "Ticket type must be " ++ quoted "ieee" ++ lit " or "
       ++ quoted "non-ieee") errors in
  let errors :=
    push_if (negb (strict_eq (agreeToTerms b) (VBool true))
             && negb (strict_eq (agreeToTerms b) (VStr (lit "true"))))
      (lit "You must agree to the terms and conditions") errors in
  let errors :=
    push_if (negb (bool_decide (is_Some (req_file req))))
      (lit "Transaction screenshot is required") errors in
  errors.

(** What a middleware does: reply, or hand over with [next()]. *)
Inductive middleware :=
| Reply (r : response)
| Next.

Definition validateRegistration (req : request) : middleware :=
  let errors := validation_errors req in
  if (0 <? length errors)%nat then
    Reply (Response 400 false (Some (lit "Validation failed")) (Some errors)
             None None)
  else Next.

(** *** uploadToImgBB

    The [FormData] object the function creates is never used and is left
    out; the base64 text of the buffer is what [axios_post] sends. *)

Record upload_result := UploadResult {
  up_success : bool;
  up_url : jsstring;
  up_deleteUrl : jsstring
}.

Definition uploadToImgBB (imageBuffer : list N) (imageName : jsstring)
  : M upload_result :=
  try_catch
    (let* response := axios_post imageBuffer imageName in
     match response with
     | Some d =>
         if ib_success d then
           match ib_data d with
           | Some (url, delete_url) => ret (UploadResult true url delete_url)
           | None => throw (TypeError_undefined "url")
           end
         else throw (Error (lit "ImgBB upload failed"))
     | None => throw (Error (lit "ImgBB upload failed"))
     end)
    (fun error =>
       console_error (MsgImgBBError (err_message error)) >>
       throw (Error (lit "Failed to upload image to ImgBB: "
                     ++ err_message error))).

(** *** appendToGoogleSheets *)

(** The [row] array built inside the callback. *)
Definition sheetRow (registrationData : document) : M (list value) :=
  let* createdAt :=
    match prop registrationData "createdAt" with
    | VDate t => ret (VStr (toISOString t))
    | VUndefined | VNull => throw (TypeError_undefined "toISOString")
    | _ =>
        throw (TypeError_not_a_function
                 "registrationData.createdAt.toISOString")
    end in
  ret [ prop registrationData "ticketId";
        prop registrationData "shortTicketId";
        prop registrationData "fullName";
        prop registrationData "email";
        prop registrationData "phone";
        prop registrationData "college";
        prop registrationData "branch";
        prop registrationData "year";
        prop registrationData "gender";
        prop registrationData "accommodation";
        prop registrationData "foodPreference";
        prop registrationData "ieeeStatus";
        js_or (prop registrationData "ieeeMembershipId") (VStr []);
        prop registrationData "ticketType";
        prop registrationData "transactionScreenshotUrl";
        prop registrationData "status";
        createdAt ].

(** The callback handed to [setImmediate]. *)
Definition sheetsCallback (registrationData : document) : M unit :=
  try_catch
    (let* e := ask in
     if negb (sheets e) || negb (truthy (of_field (GOOGLE_SHEET_ID e))) then
       console_log MsgSheetsSkip
     else
       let* row := sheetRow registrationData in
       sheets_append (of_field (GOOGLE_SHEET_ID e))
         (js_or (of_field (GOOGLE_SHEET_RANGE e)) (VStr (lit "Sheet1!A:Q")))
         row >>
       console_log (MsgSheetsSynced (prop registrationData "shortTicketId")))
    (fun error =>
       console_error (MsgSheetsError (prop registrationData "shortTicketId")
                        (err_message error))).

Definition appendToGoogleSheets (registrationData : document) : M unit :=
  setImmediate registrationData.

(** The check phase of the event loop: the queued callbacks run, oldest
    first, after the handler has run to completion. *)
Definition run_immediates (e : env) (w : world) : world :=
  fold_left (fun w' registrationData =>
               snd (sheetsCallback registrationData e w'))
    (immediates w)
    (World (tickets w) (calls w) (console w) (ticks w) []).

(** *** POST /api/register *)

(** The object literal [registrationDoc]. *)
Definition registrationDoc (b : body) (fullTicketId shortTicketId : jsstring)
  (uploadResult : upload_result) : M document :=
  let* fullName' := method (fullName b) "trim" trim in
  let* email' :=
    method (email b) "toLowerCase" (fun s => trim (toLowerCase s)) in
  let* phone' := method (phone b) "trim" trim in
  let* college' := method (college b) "trim" trim in
  let* branch' := method (branch b) "trim" trim in
  let* gender' :=
    method (gender b) "toLowerCase" (fun s => trim (toLowerCase s)) in
  let* membershipId :=
    if strict_eq (of_field (ieeeStatus b)) (VStr (lit "member")) then
      method (ieeeMembershipId b) "trim" (fun s => VStr (trim s))
    else ret VNull in
  let* createdAt := Date_now in
  let* updatedAt := Date_now in
  ret (list_to_map
         [ ("ticketId", VStr fullTicketId);
           ("shortTicketId", VStr shortTicketId);
           ("fullName", VStr fullName');
           ("email", VStr email');
           ("phone", VStr phone');
           ("college", VStr college');
           ("branch", VStr branch');
           ("year", of_field (year b));
           ("gender", VStr gender');
           ("accommodation", of_field (accommodation b));
           ("foodPreference", of_field (foodPreference b));
           ("ieeeStatus", of_field (ieeeStatus b));
           ("ieeeMembershipId", membershipId);
           ("ticketType", of_field (ticketType b));
           ("transactionScreenshotUrl", VStr (up_url uploadResult));
           ("transactionScreenshotDeleteUrl",
             VStr (up_deleteUrl uploadResult));
           ("agreeToTerms",
             VBool (strict_eq (agreeToTerms b) (VBool true)
                    || strict_eq (agreeToTerms b) (VStr (lit "true"))));
           ("status", VStr (lit "pending"));
           ("createdAt", VDate createdAt);
           ("updatedAt", VDate updatedAt) ]%string).

Definition duplicate_email_reply : response :=
  Response 400 false (Some (lit "Email already registered")) None
    (Some (lit "This email address has already been used for registration"))
    None.

Definition duplicate_key_reply : response :=
  Response 400 false (Some (lit "Registration already exists")) None
    (Some (lit "This email or ticket ID already exists in the system"))
    None.

Definition failure_reply (m : jsstring) : response :=
  Response 500 false (Some (lit "Registration failed")) None (Some m) None.

(** The reply of the [catch] block: duplicate key errors (code 11000) are
    told apart from all others. *)
Definition error_reply (error : js_error) : response :=
  if bool_decide (err_code error = Some 11000%Z) then duplicate_key_reply
  else failure_reply (err_message error).

Definition success_reply (fullTicketId shortTicketId email' : jsstring)
  : response :=
  Response 201 true (Some (lit "Registration successful")) None None
    (Some (list_to_map [ ("ticketId", VStr fullTicketId);
                         ("shortTicketId", VStr shortTicketId);
                         ("email", VStr email') ]%string)).

(** The async handler of the route. *)
Definition register_handler (req : request) : M response :=
  let b := req_body req in
  let* registrationStartTime := Date_now in
  try_catch
    (console_log (MsgAttempt (email b)) >>
     let* key := method (email b) "toLowerCase" toLowerCase in
     let* existingRegistration := findOne (QEq "email" (VStr key)) in
     match existingRegistration with
     | Some _ =>
         console_log (MsgDuplicate (email b)) >>
         ret duplicate_email_reply
     | None =>
         let* fullTicketId := uuidv4 in
         let shortTicketId := generateShortTicketId fullTicketId in
         console_log (MsgTicketIds fullTicketId shortTicketId) >>
         console_log MsgUploading >>
         let* imageBuffer :=
           match req_file req with
           | Some f => ret (buffer f)
           | None => throw (TypeError_undefined "buffer")
           end in
         let* now := Date_now in
         let* uploadResult :=
           uploadToImgBB imageBuffer
             (lit "transaction_" ++ shortTicketId ++ lit "_"
              ++ lit (pretty now)) in
         if negb (up_success uploadResult) then
           throw (Error (lit "Failed to upload transaction screenshot"))
         else
           console_log (MsgUploaded (up_url uploadResult)) >>
           let* doc :=
             registrationDoc b fullTicketId shortTicketId uploadResult in
           let* stored := insertOne doc in
           let* finished := Date_now in
           console_log
             (MsgSuccess (email b) (finished - registrationStartTime)%Z) >>
           appendToGoogleSheets stored >>
           let* email' :=
             method (email b) "toLowerCase"
               (fun s => trim (toLowerCase s)) in
           ret (success_reply fullTicketId shortTicketId email')
     end)
    (fun error =>
       console_error (MsgRegistrationError (err_message error)) >>
       ret (error_reply error)).

(** The route: [validateRegistration], then the handler. *)
Definition register_endpoint (req : request) : M response :=
  match validateRegistration req with
  | Reply r => ret r
  | Next => register_handler req
  end.

(** *** GET /api/registration/:ticketId *)

Definition not_found_reply : response :=
  Response 404 false (Some (lit "Registration not found")) None None None.

Definition lookup_endpoint (ticketId : jsstring) : M response :=
  try_catch
    (let* registration :=
       findOne (QOr (QEq "ticketId" (VStr ticketId))
                  (QEq "shortTicketId" (VStr ticketId))) in
     match registration with
     | None => ret not_found_reply
     | Some registration =>
         let safeData :=
           delete "transactionScreenshotDeleteUrl"%string registration in
         ret (Response 200 true None None None (Some safeData))
     end)
    (fun error =>
       console_error (MsgFetchError (err_message error)) >>
       ret (Response 500 false (Some (lit "Failed to fetch registration"))
              None (Some (err_message error)) None)).

End Service.

(** ** The rules of the form, in the words of the specification *)

(** A code unit that is neither white space nor the at sign. *)
Definition plain (c : N) : bool :=
  negb (isWhiteSpace c || (c =? N_of_ascii "@")).

(** [local@domain.tld]: three non-empty runs of plain code units, with one
    at sign and a dot after it, and no white space anywhere. *)
Definition email_shape (s : jsstring) : Prop :=
  exists loc domain tld,
    s = loc ++ lit "@" ++ domain ++ lit "." ++ tld
    /\ loc <> [] /\ domain <> [] /\ tld <> []
    /\ forallb plain loc = true /\ forallb plain domain = true
    /\ forallb plain tld = true.

Definition isDigit (c : N) : bool :=
  (N_of_ascii "0" <=? c) && (c <=? N_of_ascii "9").

(** [+91], a digit from 6 to 9, then nine more digits. *)
Definition phone_shape (s : jsstring) : Prop :=
  exists d rest,
    s = lit "+91" ++ d :: rest
    /\ (N_of_ascii "6" <= d <= N_of_ascii "9")
    /\ length rest = 9%nat /\ forallb isDigit rest = true.

Inductive rule :=
| RFullName | REmail | RPhone | RCollege | RBranch | RYear | RGender
| RAccommodation | RFoodPreference | RIeeeStatus | RIeeeMembershipId
| RTicketType | RAgreeToTerms | RFile.

Definition all_rules : list rule :=
  [ RFullName; REmail; RPhone; RCollege; RBranch; RYear; RGender;
    RAccommodation; RFoodPreference; RIeeeStatus; RIeeeMembershipId;
    RTicketType; RAgreeToTerms; RFile ].

(** The message the validator pushes for each rule. *)
Definition rule_message (r : rule) : jsstring :=
  match r with
  | RFullName => lit "Full name must be at least 2 characters long"
  | REmail => lit "Valid email address is required"
  | RPhone => lit "Phone number must be in format: +91XXXXXXXXXX"
  | RCollege => lit "College name is required"
  | RBranch => lit "Branch is required"
  | RYear => lit "Year must be 1, 2, 3, or 4"
  | RGender =>
      lit "Gender must be " ++ quoted "male" ++ lit ", " ++ quoted "female"
      ++ lit ", or " ++ quoted "other"
  | RAccommodation =>
      lit "Accommodation must be " ++ quoted "yes" ++ lit " or " ++ quoted "no"
  | RFoodPreference =>
      lit "Food preference must be " ++ quoted "veg" ++ lit " or "
      ++ quoted "non-veg"
  | RIeeeStatus =>
      lit "IEEE status must be " ++ quoted "member" ++ lit " or "
      ++ quoted "non-member"
  | RIeeeMembershipId => lit "IEEE Membership ID is required for IEEE members"
  | RTicketType =>
      lit "Ticket type must be " ++ quoted "ieee" ++ lit " or "
      ++ quoted "non-ieee"
  | RAgreeToTerms => lit "You must agree to the terms and conditions"
  | RFile => lit "Transaction screenshot is required"
  end.

(** A text field is present and its trimmed length is at least [n]. *)
Definition trimmed_at_least (n : nat) (x : option jsstring) : Prop :=
  exists s, x = Some s /\ (n <= length (trim s))%nat.

(** A text field is present and is one of the listed words. *)
Definition one_of (words : list jsstring) (x : option jsstring) : Prop :=
  exists s, x = Some s /\ In s words.

(** What each rule of the specification asks of a submission.
    [lower] is the lower-casing used for the case-insensitive comparison. *)
Definition satisfies (lower : jsstring -> jsstring) (req : request) (r : rule)
  : Prop :=
  let b := req_body req in
  match r with
  | RFullName => trimmed_at_least 2 (fullName b)
  | REmail => exists s, email b = Some s /\ email_shape s
  | RPhone => exists s, phone b = Some s /\ phone_shape s
  | RCollege => trimmed_at_least 2 (college b)
  | RBranch => trimmed_at_least 2 (branch b)
  | RYear => one_of [lit "1"; lit "2"; lit "3"; lit "4"] (year b)
  | RGender =>
      exists s, gender b = Some s /\ s <> []
                /\ In (lower s) [lit "male"; lit "female"; lit "other"]
  | RAccommodation => one_of [lit "yes"; lit "no"] (accommodation b)
  | RFoodPreference => one_of [lit "veg"; lit "non-veg"] (foodPreference b)
  | RIeeeStatus => one_of [lit "member"; lit "non-member"] (ieeeStatus b)
  | RIeeeMembershipId =>
      ieeeStatus b = Some (lit "member") ->
      trimmed_at_least 5 (ieeeMembershipId b)
  | RTicketType => one_of [lit "ieee"; lit "non-ieee"] (ticketType b)
  | RAgreeToTerms =>
      agreeToTerms b = VBool true \/ agreeToTerms b = VStr (lit "true")
  | RFile => exists f, req_file req = Some f
  end.

(** The condition under which [validateRegistration] pushes the message of
    each rule. *)
Definition violated (lower : jsstring -> jsstring) (req : request) (r : rule)
  : bool :=
  let b := req_body req in
  match r with
  | RFullName => missing_or (fullName b) (fun s => (length (trim s) <? 2)%nat)
  | REmail => missing_or (email b) (fun s => negb (test emailRegex s))
  | RPhone => missing_or (phone b) (fun s => negb (test phoneRegex s))
  | RCollege => missing_or (college b) (fun s => (length (trim s) <? 2)%nat)
  | RBranch => missing_or (branch b) (fun s => (length (trim s) <? 2)%nat)
  | RYear =>
      missing_or (year b)
        (fun s => negb (includes [lit "1"; lit "2"; lit "3"; lit "4"] s))
  | RGender =>
      missing_or (gender b)
        (fun s => negb (includes [lit "male"; lit "female"; lit "other"]
                          (lower s)))
  | RAccommodation =>
      missing_or (accommodation b)
        (fun s => negb (includes [lit "yes"; lit "no"] s))
  | RFoodPreference =>
      missing_or (foodPreference b)
        (fun s => negb (includes [lit "veg"; lit "non-veg"] s))
  | RIeeeStatus =>
      missing_or (ieeeStatus b)
        (fun s => negb (includes [lit "member"; lit "non-member"] s))
  | RIeeeMembershipId =>
      strict_eq (of_field (ieeeStatus b)) (VStr (lit "member"))
      && missing_or (ieeeMembershipId b) (fun s => (length (trim s) <? 5)%nat)
  | RTicketType =>
      missing_or (ticketType b)
        (fun s => negb (includes [lit "ieee"; lit "non-ieee"] s))
  | RAgreeToTerms =>
      negb (strict_eq (agreeToTerms b) (VBool true))
      && negb (strict_eq (agreeToTerms b) (VStr (lit "true")))
  | RFile => negb (bool_decide (is_Some (req_file req)))
  end.

(** ** Observing a run *)

(** The calls issued between two states of the world. *)
Definition issued (w w' : world) : list call :=
  skipn (length (calls w)) (calls w').

(** How the [try] block of [uploadToImgBB] ends for a given answer of
    ImgBB: with the result object, or with the error that its [catch] block
    wraps. *)
Definition imgbb_outcome (r : axios_result) : result upload_result :=
  match r with
  | AxiosReject err => Throw err
  | AxiosResolve None => Throw (Error (lit "ImgBB upload failed"))
  | AxiosResolve (Some d) =>
      if ib_success d then
        match ib_data d with
        | Some (url, delete_url) => Ok (UploadResult true url delete_url)
        | None => Throw (TypeError_undefined "url")
        end
      else Throw (Error (lit "ImgBB upload failed"))
  end.

(** The world after a handler issued the calls [cs], printed the lines
    [ls] and read the clock [n] times, the store and the queue untouched. *)
Definition after (w : world) (cs : list call) (ls : list log_entry) (n : nat)
  : world :=
  World (tickets w) (calls w ++ cs) (console w ++ ls) (n + ticks w)
    (immediates w).

(** The document the handler builds from a body whose text fields are
    all present, written as one expression. *)
Definition built_document (lower : jsstring -> jsstring) (b : body)
  (fullTicketId shortTicketId : jsstring) (uploadResult : upload_result)
  (createdAt updatedAt : Z) : document :=
  list_to_map
    [ ("ticketId", VStr fullTicketId);
      ("shortTicketId", VStr shortTicketId);
      ("fullName", of_field (trim <$> fullName b));
      ("email", of_field ((fun s => trim (lower s)) <$> email b));
      ("phone", of_field (trim <$> phone b));
      ("college", of_field (trim <$> college b));
      ("branch", of_field (trim <$> branch b));
      ("year", of_field (year b));
      ("gender", of_field ((fun s => trim (lower s)) <$> gender b));
      ("accommodation", of_field (accommodation b));
      ("foodPreference", of_field (foodPreference b));
      ("ieeeStatus", of_field (ieeeStatus b));
      ("ieeeMembershipId",
        if strict_eq (of_field (ieeeStatus b)) (VStr (lit "member"))
        then of_field (trim <$> ieeeMembershipId b) else VNull);
      ("ticketType", of_field (ticketType b));
      ("transactionScreenshotUrl", VStr (up_url uploadResult));
      ("transactionScreenshotDeleteUrl", VStr (up_deleteUrl uploadResult));
      ("agreeToTerms",
        VBool (strict_eq (agreeToTerms b) (VBool true)
               || strict_eq (agreeToTerms b) (VStr (lit "true"))));
      ("status", VStr (lit "pending"));
      ("createdAt", VDate createdAt);
      ("updatedAt", VDate updatedAt) ]%string.

(** The documents added to the collection between two states. *)
Definition inserted (w w' : world) : list document :=
  skipn (length (tickets w)) (tickets w').

(** The same environment with another Google Sheets sink. *)
Definition with_sheets (e : env) (client : bool)
  (sheet_id sheet_range : option jsstring) (fault : option js_error) : env :=
  Env (clock e) (next_uuid e) (imgbb e) (findOne_fault e) (insertOne_fault e)
    (next_objectId e) client sheet_id sheet_range fault.

(** The sink is configured when [sheets] is set and [GOOGLE_SHEET_ID] is a
    non-empty string. *)
Definition sheets_configured (e : env) : bool :=
  sheets e && truthy (of_field (GOOGLE_SHEET_ID e)).

(** The reply of the lookup route for a stored document. *)
Definition found_reply (registration : document) : response :=
  Response 200 true None None None
    (Some (delete "transactionScreenshotDeleteUrl"%string registration)).

(** The store as the unique indexes and the pipeline leave it: no two
    documents share a [ticketId] or a [shortTicketId], every [ticketId] is
    a version-4 UUID and every [shortTicketId] is derived from it. *)
Definition well_keyed (d : document) : Prop :=
  exists t, isUuidV4 t = true
            /\ d !! "ticketId"%string = Some (VStr t)
            /\ d !! "shortTicketId"%string
               = Some (VStr (generateShortTicketId t)).

Definition store_ok (store : list document) : Prop :=
  Forall well_keyed store
  /\ NoDup (map (fun d => prop d "ticketId") store)
  /\ NoDup (map (fun d => prop d "shortTicketId") store).

(** ** Instances used to exercise the model *)

(** Lower-casing restricted to the ASCII letters. *)
Definition asciiLower (s : jsstring) : jsstring :=
  map (fun c => if (65 <=? c) && (c <=? 90) then c + 32 else c) s.

(** Decimal digits of [z], left-padded with zeros to [n] places. *)
Definition pad (n : nat) (z : Z) : jsstring :=
  let digits := lit (pretty z) in
  repeat (N_of_ascii "0") (n - length digits) ++ digits.

(** The ISO 8601 text of a time value given in milliseconds since the
    epoch (proleptic Gregorian calendar, UTC). *)
Definition isoString (t : Z) : jsstring :=
  (let day := t / 86400000 in
   let ms := t mod 86400000 in
   let z := day + 719468 in
   let era := z / 146097 in
   let doe := z - era * 146097 in
   let yoe := (doe - doe / 1460 + doe / 36524 - doe / 146096) / 365 in
   let doy := doe - (365 * yoe + yoe / 4 - yoe / 100) in
   let mp := (5 * doy + 2) / 153 in
   let d := doy - (153 * mp + 2) / 5 + 1 in
   let m := if mp <? 10 then mp + 3 else mp - 9 in
   let y := yoe + era * 400 + (if m <=? 2 then 1 else 0) in
   let yyyy :=
     if (0 <=? y) && (y <=? 9999) then pad 4 y
     else lit (if y <? 0 then "-" else "+") ++ pad 6 (Z.abs y) in
   yyyy ++ lit "-" ++ pad 2 m ++ lit "-" ++ pad 2 d ++ lit "T"
   ++ pad 2 (ms / 3600000) ++ lit ":" ++ pad 2 (ms / 60000 mod 60) ++ lit ":"
   ++ pad 2 (ms / 1000 mod 60) ++ lit "." ++ pad 3 (ms mod 1000) ++ lit "Z")%Z.

Definition jane_body : body :=
  Body (Some (lit "Jane Doe")) (Some (lit "Jane@X.com"))
    (Some (lit "+919876543210")) (Some (lit "ABC")) (Some (lit "CS"))
    (Some (lit "2")) (Some (lit "female")) (Some (lit "no"))
    (Some (lit "veg")) (Some (lit "non-member")) None
    (Some (lit "non-ieee")) (VStr (lit "true")).

Definition screenshot : file := File [255; 216; 255; 224] (lit "image/jpeg").

Definition jane_request : request := Request jane_body (Some screenshot).


(** An IEEE member, with blanks around the membership number. *)
Definition member_request : request :=
  Request
    (Body (Some (lit "Ravi Kumar")) (Some (lit "ravi@y.org"))
       (Some (lit "+919812345678")) (Some (lit "XYZ")) (Some (lit "EE"))
       (Some (lit "3")) (Some (lit "Male")) (Some (lit "yes"))
       (Some (lit "non-veg")) (Some (lit "member")) (Some (lit " 98765432 "))
       (Some (lit "ieee")) (VBool true))
    (Some screenshot).

(** Everything outside works; the clock advances one millisecond between
    two readings. *)
Definition fair_env : env :=
  Env (fun n => (1700000000000 + Z.of_nat n)%Z)
    (lit "3f2b8c1a-9d4e-4f6a-8b7c-0123456789ab")
    (AxiosResolve
       (Some (ImgbbBody true
                (Some (lit "https://i.ibb.co/abc/proof.jpg",
                       lit "https://ibb.co/abc/delete")))))
    None None 1 true (Some (lit "sheet-1")) None None.

(** ImgBB cannot be reached. *)
Definition imgbb_down_env : env :=
  Env (clock fair_env) (next_uuid fair_env)
    (AxiosReject (Error (lit "connect ECONNREFUSED")))
    None None 1 true (Some (lit "sheet-1")) None None.

Definition empty_world : world := World [] [] [] 0 [].

(** The world after Jane has registered. *)
Definition jane_world : world :=
  snd (register_endpoint asciiLower jane_request fair_env empty_world).

(** The document built for Jane, before the driver adds [_id]. *)
Definition jane_record : document :=
  built_document asciiLower jane_body (next_uuid fair_env)
    (generateShortTicketId (next_uuid fair_env))
    (UploadResult true (lit "https://i.ibb.co/abc/proof.jpg")
       (lit "https://ibb.co/abc/delete"))
    1700000000002 1700000000003.

(** ** The upload boundary and the error handler

    [upload.single('transactionScreenshot')] stands between the rate
    limiter and [validateRegistration].  Its options and the error handler
    at the end of the file are code of the service; the middleware itself
    is multer's and is modelled by what it does with these options: a file
    part under another field name is refused, then [fileFilter] is asked,
    then the bytes are read up to the size limit. *)

(** The multipart request as it arrives: the text parts, and the file
    part, if one was sent, with the name of its field. *)
Record part := Part { fieldname : jsstring; content : file }.
Record submission := Submission { text_parts : body; file_part : option part }.

Definition allowedTypes : list jsstring :=
  [lit "image/jpeg"; lit "image/png"; lit "image/jpg"; lit "image/webp"].

(** [limits.fileSize]: 5 * 1024 * 1024 bytes. *)
Definition fileSize : N := 5 * 1024 * 1024.

(** [fileFilter]: [cb(null, true)] or [cb(new Error(...))]. *)
Definition fileFilter (f : file) : result bool :=
  if includes allowedTypes (mimetype f) then Ok true
  else Throw (Error (lit "Invalid file type. Only JPEG, PNG, and WebP images are allowed.")).

(** What can reach the error handler: an error of multer's own class, with
    its code, or any other error. *)
Inductive thrown :=
| MulterError (code : string) (m : jsstring)
| OtherError (e : js_error).

Definition thrown_message (err : thrown) : jsstring :=
  match err with
  | MulterError _ m => m
  | OtherError e => err_message e
  end.

(** [upload.single(field)] with the options above: the request handed to
    the next middleware, or the error handed to [next].  A file of more
    than [fileSize] bytes is refused; whether one of exactly [fileSize]
    bytes passes depends on the release of the multipart parser: it passes
    here, and no property below rests on that case. *)
Definition upload_single (field : jsstring) (s : submission)
  : thrown + request :=
  match file_part s with
  | None => inr (Request (text_parts s) None)
  | Some p =>
      if negb (jsstring_eqb (fieldname p) field) then
        inl (MulterError "LIMIT_UNEXPECTED_FILE" (lit "Unexpected field"))
      else
        match fileFilter (content p) with
        | Throw e => inl (OtherError e)
        | Ok false => inr (Request (text_parts s) None)
        | Ok true =>
            if fileSize <? N.of_nat (length (buffer (content p))) then
              inl (MulterError "LIMIT_FILE_SIZE" (lit "File too large"))
            else inr (Request (text_parts s) (Some (content p)))
        end
  end.

(** The error handler: the error it prints with [console.error] and the
    reply it sends. *)
Definition errorHandler (err : thrown) : thrown * response :=
  (err,
   match err with
   | MulterError _ _ =>
       Response 400 false (Some (lit "File upload error")) None
         (Some (thrown_message err)) None
   | OtherError _ =>
       Response 500 false (Some (lit "Internal server error")) None
         (Some (thrown_message err)) None
   end).

(** The registration route behind the rate limiter: the error the error
    handler printed, if it ran, and the reply. *)
Definition register_route (lower : jsstring -> jsstring) (s : submission)
  : M (option thrown * response) :=
  match upload_single (lit "transactionScreenshot") s with
  | inl err => ret (Some (fst (errorHandler err)), snd (errorHandler err))
  | inr req => let* reply := register_endpoint lower req in ret (None, reply)
  end.


Definition jane_submission : submission :=
  Submission jane_body (Some (Part (lit "transactionScreenshot") screenshot)).

Definition colliding_env : env :=
  Env (clock fair_env) (lit "3f2b8c1a-1111-4222-8333-444444444444")
    (imgbb fair_env) None None 2 true (Some (lit "sheet-1")) None None.

(** Jane's form once more, with the address typed in capitals. *)
Definition jane_again_request : request :=
  Request
    (Body (Some (lit "Jane Doe")) (Some (lit "JANE@X.COM"))
       (Some (lit "+919876543210")) (Some (lit "ABC")) (Some (lit "CS"))
       (Some (lit "2")) (Some (lit "female")) (Some (lit "no"))
       (Some (lit "veg")) (Some (lit "non-member")) None
       (Some (lit "non-ieee")) (VStr (lit "true")))
    (Some screenshot).

(** Jane's form with a blank typed before the address. *)
Definition blank_email_request : request :=
  Request
    (Body (Some (lit "Jane Doe")) (Some (lit " jane@x.com"))
       (Some (lit "+919876543210")) (Some (lit "ABC")) (Some (lit "CS"))
       (Some (lit "2")) (Some (lit "female")) (Some (lit "no"))
       (Some (lit "veg")) (Some (lit "non-member")) None
       (Some (lit "non-ieee")) (VStr (lit "true")))
    (Some screenshot).

(** The database has gone away. *)
Definition store_down_env : env :=
  Env (clock fair_env) (next_uuid fair_env) (imgbb fair_env)
    (Some (Error (lit "connection closed"))) None 1 true
    (Some (lit "sheet-1")) None None.

(** * Properties *)

(** ** Strings and patterns *)

Lemma trimStart_id s :
  match s with c :: _ => isWhiteSpace c = false | [] => True end ->
  trimStart s = s.
Proof. destruct s as [|c s]; simpl; [done|]. by intros ->. Qed.

Lemma trim_no_space s :
  forallb (fun c => negb (isWhiteSpace c)) s = true -> trim s = s.
Proof.
  intros Hs. unfold trim, trimEnd.
  assert (Hrev : forallb (fun c => negb (isWhiteSpace c)) (rev s) = true).
  { rewrite forallb_forall in *. intros c Hc. apply Hs. by apply in_rev. }
  rewrite (trimStart_id s).
  - rewrite (trimStart_id (rev s)); [apply rev_involutive|].
    destruct (rev s) as [|c r]; [done|]. simpl in Hrev.
    apply andb_true_iff in Hrev as [Hc _]. by apply negb_true_iff.
  - destruct s as [|c r]; [done|]. simpl in Hs.
    apply andb_true_iff in Hs as [Hc _]. by apply negb_true_iff.
Qed.

Lemma test_Void s : test Void s = false.
Proof. induction s; simpl; auto. Qed.

Lemma test_Eps s : test Eps s = true <-> s = [].
Proof.
  destruct s as [|c s]; simpl; [done|]. rewrite test_Void. split; discriminate.
Qed.

Lemma test_Alt r1 r2 s : test (Alt r1 r2) s = test r1 s || test r2 s.
Proof. revert r1 r2. induction s as [|c s IH]; intros; simpl; auto. Qed.

Lemma test_Class p s : test (Class p) s = true <-> exists c, s = [c] /\ p c = true.
Proof.
  destruct s as [|c s]; simpl.
  - split; [discriminate|]. by intros (c & ? & _).
  - destruct (p c) eqn:Hp.
    + rewrite test_Eps. split.
      * intros ->. eauto.
      * by intros (c' & [= -> ->] & _).
    + rewrite test_Void. split; [discriminate|].
      intros (c' & [= -> ->] & ?). congruence.
Qed.

Lemma test_Seq r1 r2 s :
  test (Seq r1 r2) s = true
  <-> exists s1 s2, s = s1 ++ s2 /\ test r1 s1 = true /\ test r2 s2 = true.
Proof.
  revert r1. induction s as [|c s IH]; intros r1; simpl.
  - rewrite andb_true_iff. split.
    + intros [? ?]. by exists [], [].
    + intros (s1 & s2 & Hs & H1 & H2). symmetry in Hs.
      apply app_eq_nil in Hs as [-> ->]. done.
  - destruct (nullable r1) eqn:Hn.
    + rewrite test_Alt, orb_true_iff, IH. split.
      * intros [(s1 & s2 & -> & H1 & H2) | H2].
        -- by exists (c :: s1), s2.
        -- by exists [], (c :: s).
      * intros (s1 & s2 & Hs & H1 & H2). destruct s1 as [|c' s1].
        -- right. simpl in Hs. by subst s2.
        -- left. injection Hs as -> ->. by exists s1, s2.
    + rewrite IH. split.
      * intros (s1 & s2 & -> & H1 & H2). by exists (c :: s1), s2.
      * intros (s1 & s2 & Hs & H1 & H2). destruct s1 as [|c' s1].
        -- simpl in H1. congruence.
        -- injection Hs as -> ->. by exists s1, s2.
Qed.

Lemma test_Star_Class p s : test (Star (Class p)) s = forallb p s.
Proof.
  induction s as [|c s IH]; [done|].
  change (test (Star (Class p)) (c :: s))
    with (test (Seq (deriv c (Class p)) (Star (Class p))) s).
  simpl deriv. destruct (p c) eqn:Hp; simpl; rewrite ?Hp; simpl.
  - rewrite <- IH. apply eq_true_iff_eq. rewrite test_Seq. split.
    + intros (s1 & s2 & -> & H1 & H2). apply test_Eps in H1 as ->. done.
    + intros H. by exists [], s.
  - apply not_true_is_false. rewrite test_Seq.
    intros (s1 & s2 & _ & H1 & _). by rewrite test_Void in H1.
Qed.

Lemma test_Plus_Class p s :
  test (Plus (Class p)) s = true <-> s <> [] /\ forallb p s = true.
Proof.
  unfold Plus. rewrite test_Seq. split.
  - intros (s1 & s2 & -> & H1 & H2).
    apply test_Class in H1 as (c & -> & Hc).
    rewrite test_Star_Class in H2. simpl. rewrite Hc, H2. done.
  - intros [Hne Hall]. destruct s as [|c s]; [done|]. simpl in Hall.
    apply andb_true_iff in Hall as [Hc Hs]. exists [c], s.
    rewrite test_Star_Class. repeat split; [|done].
    apply test_Class. eauto.
Qed.

Lemma test_Repeat_Class n p s :
  test (Repeat n (Class p)) s = true <-> length s = n /\ forallb p s = true.
Proof.
  revert s. induction n as [|n IH]; intros s; simpl Repeat.
  - rewrite test_Eps. split; [by intros ->|]. intros [Hl _].
    by destruct s.
  - rewrite test_Seq. split.
    + intros (s1 & s2 & -> & H1 & H2).
      apply test_Class in H1 as (c & -> & Hc). apply IH in H2 as [<- H2].
      simpl. by rewrite Hc, H2.
    + intros [Hl Hall]. destruct s as [|c s]; [done|]. simpl in *.
      apply andb_true_iff in Hall as [Hc Hs]. exists [c], s.
      repeat split; [apply test_Class; eauto | apply IH; split; [lia|done]].
Qed.

Lemma test_Chr a s : test (Chr a) s = true <-> s = [N_of_ascii a].
Proof.
  unfold Chr. rewrite test_Class. split.
  - intros (c & -> & Hc). apply N.eqb_eq in Hc. by subst.
  - intros ->. eexists; split; [done|]. apply N.eqb_refl.
Qed.

(** The email pattern accepts exactly the strings of the shape
    [local@domain.tld]. *)
Lemma emailRegex_shape s : test emailRegex s = true <-> email_shape s.
Proof.
  unfold emailRegex, email_shape, notSpaceAt.
  change (fun c => negb (isWhiteSpace c || (c =? N_of_ascii "@"))) with plain.
  rewrite test_Seq. split.
  - intros (loc & s2 & -> & Hloc & H2).
    apply test_Plus_Class in Hloc as [? ?].
    apply test_Seq in H2 as (at_ & s3 & -> & Hat & H3).
    apply test_Chr in Hat as ->.
    apply test_Seq in H3 as (domain & s4 & -> & Hdom & H4).
    apply test_Plus_Class in Hdom as [? ?].
    apply test_Seq in H4 as (dot & tld & -> & Hdot & Htld).
    apply test_Chr in Hdot as ->.
    apply test_Plus_Class in Htld as [? ?].
    by exists loc, domain, tld.
  - intros (loc & domain & tld & -> & ? & ? & ? & ? & ? & ?).
    exists loc, (lit "@" ++ domain ++ lit "." ++ tld).
    split; [done|]. split; [by apply test_Plus_Class|].
    apply test_Seq. exists (lit "@"), (domain ++ lit "." ++ tld).
    split; [done|]. split; [by apply test_Chr|].
    apply test_Seq. exists domain, (lit "." ++ tld).
    split; [done|]. split; [by apply test_Plus_Class|].
    apply test_Seq. exists (lit "."), tld.
    split; [done|]. split; [by apply test_Chr | by apply test_Plus_Class].
Qed.

Lemma plain_no_space s :
  forallb plain s = true -> forallb (fun c => negb (isWhiteSpace c)) s = true.
Proof.
  rewrite !forallb_forall. intros H c Hc. specialize (H c Hc).
  unfold plain in H. apply negb_true_iff, orb_false_iff in H as [-> _]. done.
Qed.

Lemma email_shape_no_space s :
  email_shape s -> forallb (fun c => negb (isWhiteSpace c)) s = true.
Proof.
  intros (loc & domain & tld & -> & _ & _ & _ & Hl & Hd & Ht).
  rewrite !forallb_app.
  rewrite (plain_no_space _ Hl), (plain_no_space _ Hd), (plain_no_space _ Ht).
  done.
Qed.

(** The phone pattern accepts exactly [+91], a digit 6 to 9 and nine
    digits. *)
Lemma phoneRegex_shape s : test phoneRegex s = true <-> phone_shape s.
Proof.
  unfold phoneRegex, phone_shape, digit, Range. split.
  - intros H.
    apply test_Seq in H as (p & s1 & -> & Hp & H). apply test_Chr in Hp as ->.
    apply test_Seq in H as (p & s2 & -> & Hp & H). apply test_Chr in Hp as ->.
    apply test_Seq in H as (p & s3 & -> & Hp & H). apply test_Chr in Hp as ->.
    apply test_Seq in H as (p & rest & -> & Hp & H).
    apply test_Class in Hp as (d & -> & Hd).
    apply test_Repeat_Class in H as [Hlen Hall].
    exists d, rest. repeat split; try done.
    + apply andb_true_iff in Hd as [Hd _]. by apply N.leb_le.
    + apply andb_true_iff in Hd as [_ Hd]. by apply N.leb_le.
  - intros (d & rest & -> & [Hlo Hhi] & Hlen & Hall).
    apply test_Seq. exists (lit "+"), (lit "91" ++ d :: rest).
    split; [done|]. split; [by apply test_Chr|].
    apply test_Seq. exists (lit "9"), (lit "1" ++ d :: rest).
    split; [done|]. split; [by apply test_Chr|].
    apply test_Seq. exists (lit "1"), (d :: rest).
    split; [done|]. split; [by apply test_Chr|].
    apply test_Seq. exists [d], rest.
    split; [done|]. split.
    + apply test_Class. exists d. split; [done|].
      apply andb_true_iff. split; by apply N.leb_le.
    + by apply test_Repeat_Class.
Qed.

(** ** The validator *)

Section Validator.

Variable toLowerCase : jsstring -> jsstring.

Lemma push_if_app c m l : push_if c m l = l ++ (if c then [m] else []).
Proof. destruct c; simpl; [done|]. by rewrite app_nil_r. Qed.

(** The validator runs through the rules in order and keeps the message of
    each one that is violated. *)
Lemma validation_errors_table req :
  validation_errors toLowerCase req
  = flat_map (fun r => if violated toLowerCase req r then [rule_message r]
                       else [])
      all_rules.
Proof.
  unfold validation_errors. rewrite !push_if_app.
  cbv beta iota zeta delta [flat_map all_rules violated rule_message].
  rewrite app_nil_r, <- !app_assoc. reflexivity.
Qed.

Lemma rule_message_inj r r' : rule_message r = rule_message r' -> r = r'.
Proof.
  destruct r, r'; intros H; try reflexivity; vm_compute in H; discriminate.
Qed.

Lemma in_all_rules r : In r all_rules.
Proof. destruct r; simpl; tauto. Qed.

Lemma validation_errors_In req r :
  In (rule_message r) (validation_errors toLowerCase req)
  <-> violated toLowerCase req r = true.
Proof.
  rewrite validation_errors_table, in_flat_map. split.
  - intros (r' & _ & Hin). destruct (violated toLowerCase req r') eqn:Hv.
    + destruct Hin as [Hm | []]. apply rule_message_inj in Hm. by subst.
    + destruct Hin.
  - intros Hv. exists r. split; [apply in_all_rules|]. rewrite Hv. by left.
Qed.

Lemma validation_errors_sublist req :
  sublist (validation_errors toLowerCase req) (map rule_message all_rules).
Proof.
  rewrite validation_errors_table.
  induction all_rules as [|r l IH]; simpl; [constructor|].
  destruct (violated toLowerCase req r); simpl.
  - by apply sublist_skip.
  - by apply sublist_cons.
Qed.

Lemma missing_or_false x f :
  missing_or x f = false <-> exists s, x = Some s /\ s <> [] /\ f s = false.
Proof.
  unfold missing_or. destruct x as [s|]; simpl.
  - rewrite orb_false_iff, negb_false_iff, negb_true_iff, bool_decide_eq_false.
    split.
    + intros [? ?]. by exists s.
    + intros (s' & [= <-] & ? & ?). done.
  - split; [discriminate|]. by intros (s & ? & _).
Qed.

Lemma trimmed_rule n x :
  (0 < n)%nat ->
  missing_or x (fun s => (length (trim s) <? n)%nat) = false
  <-> trimmed_at_least n x.
Proof.
  intros Hn. rewrite missing_or_false. unfold trimmed_at_least.
  split.
  - intros (s & -> & _ & Hlen). exists s. split; [done|].
    apply Nat.ltb_ge in Hlen. done.
  - intros (s & -> & Hlen). exists s. repeat split.
    + intros ->. vm_compute in Hlen. lia.
    + by apply Nat.ltb_ge.
Qed.

Lemma includes_In words s : includes words s = true <-> In s words.
Proof.
  unfold includes. rewrite existsb_exists. split.
  - intros (w & Hin & Heq). apply bool_decide_eq_true in Heq. by subst.
  - intros Hin. exists s. split; [done|]. by apply bool_decide_eq_true.
Qed.

Lemma word_rule words x :
  ~ In [] words ->
  missing_or x (fun s => negb (includes words s)) = false <-> one_of words x.
Proof.
  intros Hne. rewrite missing_or_false. unfold one_of.
  split.
  - intros (s & -> & _ & Hin). exists s. split; [done|].
    apply negb_false_iff in Hin. by apply includes_In.
  - intros (s & -> & Hin). exists s. repeat split.
    + by intros ->.
    + apply negb_false_iff. by apply includes_In.
Qed.

Ltac no_empty_word :=
  simpl; intros Hw; repeat destruct Hw as [Hw | Hw]; try discriminate; done.

(** Each condition of the code is the negation of the rule of the
    specification. *)
Lemma violated_false req r :
  violated toLowerCase req r = false <-> satisfies toLowerCase req r.
Proof.
  destruct r; unfold violated, satisfies.
  - apply trimmed_rule. lia.
  - rewrite missing_or_false. split.
    + intros (s & -> & _ & Ht). exists s. split; [done|].
      apply emailRegex_shape. by apply negb_false_iff.
    + intros (s & -> & Hs). exists s. repeat split.
      * intros ->. apply emailRegex_shape in Hs. discriminate.
      * apply negb_false_iff. by apply emailRegex_shape.
  - rewrite missing_or_false. split.
    + intros (s & -> & _ & Ht). exists s. split; [done|].
      apply phoneRegex_shape. by apply negb_false_iff.
    + intros (s & -> & Hs). exists s. repeat split.
      * intros ->. apply phoneRegex_shape in Hs. discriminate.
      * apply negb_false_iff. by apply phoneRegex_shape.
  - apply trimmed_rule. lia.
  - apply trimmed_rule. lia.
  - apply word_rule. no_empty_word.
  - rewrite missing_or_false. split.
    + intros (s & -> & ? & Hin). exists s. repeat split; try done.
      apply negb_false_iff in Hin. by apply includes_In.
    + intros (s & -> & ? & Hin). exists s. repeat split; try done.
      apply negb_false_iff. by apply includes_In.
  - apply word_rule. no_empty_word.
  - apply word_rule. no_empty_word.
  - apply word_rule. no_empty_word.
  - rewrite andb_false_iff. unfold strict_eq.
    rewrite bool_decide_eq_false, (trimmed_rule 5) by lia. split.
    + intros [Hst | Hid] Hm; [|done]. rewrite Hm in Hst. by destruct Hst.
    + intros H. destruct (decide (ieeeStatus (req_body req)
                                  = Some (lit "member"))) as [Hm | Hm].
      * right. auto.
      * left. destruct (ieeeStatus (req_body req)); simpl; congruence.
  - apply word_rule. no_empty_word.
  - rewrite andb_false_iff, !negb_false_iff. unfold strict_eq.
    by rewrite !bool_decide_eq_true.
  - rewrite negb_false_iff, bool_decide_eq_true. unfold is_Some. done.
Qed.

Lemma violated_true req r :
  violated toLowerCase req r = true <-> ~ satisfies toLowerCase req r.
Proof.
  rewrite <- violated_false. destruct (violated toLowerCase req r); split;
    congruence.
Qed.

Lemma validation_errors_nil req :
  validation_errors toLowerCase req = []
  <-> forall r, satisfies toLowerCase req r.
Proof.
  split.
  - intros Hnil r. apply violated_false.
    destruct (violated toLowerCase req r) eqn:Hv; [|done].
    apply validation_errors_In in Hv. rewrite Hnil in Hv. destruct Hv.
  - intros Hall. destruct (validation_errors toLowerCase req) as [|m l] eqn:He;
      [done|].
    assert (Hm : In m (map rule_message all_rules)).
    { pose proof (validation_errors_sublist req) as Hsub. rewrite He in Hsub.
      apply list_elem_of_In. eapply elem_of_sublist; [|exact Hsub]. left. }
    apply in_map_iff in Hm as (r & <- & _).
    assert (Hv : violated toLowerCase req r = true).
    { apply validation_errors_In. rewrite He. by left. }
    apply violated_true in Hv. destruct (Hv (Hall r)).
Qed.

Lemma validateRegistration_Next req :
  validateRegistration toLowerCase req = Next
  <-> forall r, satisfies toLowerCase req r.
Proof.
  rewrite <- validation_errors_nil. unfold validateRegistration.
  destruct (validation_errors toLowerCase req); simpl; split; done.
Qed.

End Validator.

(** ** The registration pipeline *)

(** Symbolic execution of the handlers: unfold the monad and the
    primitives, keep the helpers folded. *)
Ltac run :=
  cbv beta iota zeta delta
    [register_endpoint register_handler registrationDoc uploadToImgBB
     appendToGoogleSheets lookup_endpoint sheetsCallback sheetRow
     bind ret throw try_catch ask method print console_log console_error
     Date_now uuidv4 findOne insertOne axios_post sheets_append setImmediate
     record_call tickets calls console ticks immediates
     req_body req_file fullName email phone college branch year gender
     accommodation foodPreference ieeeStatus ieeeMembershipId ticketType
     agreeToTerms buffer up_success up_url up_deleteUrl].

Ltac step :=
  cbv beta iota zeta delta
    [register_endpoint register_handler appendToGoogleSheets
     bind ret throw try_catch ask method print console_log console_error
     Date_now uuidv4 findOne insertOne setImmediate
     record_call tickets calls console ticks immediates after
     req_body req_file].

Ltac tidy := rewrite <- ?app_assoc; cbn [app Nat.add]; try reflexivity.

Section Pipeline.

Variable toLowerCase : jsstring -> jsstring.
Variable toISOString : Z -> jsstring.

(** What a submission that passes the validator is known to contain. *)
Lemma validated_fields req :
  validateRegistration toLowerCase req = Next ->
  exists fn em ph co br ge st f,
    fullName (req_body req) = Some fn /\ email (req_body req) = Some em
    /\ phone (req_body req) = Some ph /\ college (req_body req) = Some co
    /\ branch (req_body req) = Some br /\ gender (req_body req) = Some ge
    /\ ieeeStatus (req_body req) = Some st /\ req_file req = Some f
    /\ email_shape em
    /\ (st = lit "member" \/ st = lit "non-member")
    /\ (st = lit "member" ->
        exists id, ieeeMembershipId (req_body req) = Some id
                   /\ (5 <= length (trim id))%nat)
    /\ (agreeToTerms (req_body req) = VBool true
        \/ agreeToTerms (req_body req) = VStr (lit "true")).
Proof.
  intros Hv. rewrite validateRegistration_Next in Hv.
  pose proof (Hv RFullName) as (fn & Hfn & _).
  pose proof (Hv REmail) as (em & Hem & Hshape).
  pose proof (Hv RPhone) as (ph & Hph & _).
  pose proof (Hv RCollege) as (co & Hco & _).
  pose proof (Hv RBranch) as (br & Hbr & _).
  pose proof (Hv RGender) as (ge & Hge & _).
  pose proof (Hv RIeeeStatus) as (st & Hst & Hin).
  pose proof (Hv RFile) as (f & Hf).
  pose proof (Hv RIeeeMembershipId) as Hid.
  pose proof (Hv RAgreeToTerms) as Hagree.
  exists fn, em, ph, co, br, ge, st, f. repeat split; try done.
  - destruct Hin as [<- | [<- | []]]; auto.
  - intros ->. by apply Hid.
Qed.

Lemma uploadToImgBB_run image name e w :
  uploadToImgBB image name e w
  = match imgbb_outcome (imgbb e) with
    | Ok up =>
        (Ok up,
         World (tickets w) (calls w ++ [CallImgBB image name]) (console w)
           (ticks w) (immediates w))
    | Throw inner =>
        (Throw (Error (lit "Failed to upload image to ImgBB: "
                       ++ err_message inner)),
         World (tickets w) (calls w ++ [CallImgBB image name])
           (console w ++ [ConsoleError (MsgImgBBError (err_message inner))])
           (ticks w) (immediates w))
    end.
Proof.
  destruct w. run. unfold imgbb_outcome.
  destruct (imgbb e) as [err | [[ok [[url del]|]]|]]; try reflexivity;
    destruct ok; reflexivity.
Qed.

(** For a validated submission the handler builds [built_document], from
    two successive readings of the clock. *)
Lemma registrationDoc_run req full short up e w :
  validateRegistration toLowerCase req = Next ->
  registrationDoc toLowerCase (req_body req) full short up e w
  = (Ok (built_document toLowerCase (req_body req) full short up
           (clock e (ticks w)) (clock e (S (ticks w)))),
     World (tickets w) (calls w) (console w) (S (S (ticks w))) (immediates w)).
Proof.
  intros Hv.
  destruct (validated_fields req Hv)
    as (fn & em & ph & co & br & ge & st & f & Hfn & Hem & Hph & Hco & Hbr
        & Hge & Hst & _ & _ & _ & Hid & _).
  unfold built_document. destruct w, (req_body req) as [].
  cbn [fullName email phone college branch gender ieeeStatus
    ieeeMembershipId year accommodation foodPreference ticketType agreeToTerms
    tickets calls console ticks immediates] in *; subst.
  run. cbn [of_field fmap option_fmap option_map].
  destruct (strict_eq (VStr st) (VStr (lit "member"))) eqn:Hm.
  - apply bool_decide_eq_true in Hm. injection Hm as Hm.
    destruct (Hid Hm) as (id & -> & _). reflexivity.
  - reflexivity.
Qed.

Lemma imgbb_outcome_success r up : imgbb_outcome r = Ok up -> up_success up = true.
Proof.
  destruct r as [err | [[ok [[url del]|]]|]]; simpl; try discriminate;
    destruct ok; try discriminate; by intros [= <-].
Qed.

(** The query of the duplicate check, and the name under which the
    screenshot is uploaded. *)
Local Abbreviation email_query em := (QEq "email" (VStr (toLowerCase em))).
Local Abbreviation upload_name e w :=
  (lit "transaction_" ++ generateShortTicketId (next_uuid e) ++ lit "_"
   ++ lit (pretty (clock e (S (ticks w))))).

Section Paths.

Variables (req : request) (e : env) (w : world) (em : jsstring) (f : file).
Hypothesis Hvalid : validateRegistration toLowerCase req = Next.
Hypothesis Hemail : email (req_body req) = Some em.
Hypothesis Hfile : req_file req = Some f.

(** The store cannot be read: the catch block replies. *)
Lemma register_find_fault err :
  findOne_fault e = Some err ->
  register_endpoint toLowerCase req e w
  = (Ok (error_reply err),
     after w [CallFindOne (email_query em)]
       [ConsoleLog (MsgAttempt (Some em));
        ConsoleError (MsgRegistrationError (err_message err))] 1).
Proof.
  intros Hfault. unfold register_endpoint. rewrite Hvalid.
  destruct req as [b file], w. cbn [req_body req_file] in *.
  step. rewrite Hemail. step. rewrite Hfault. tidy.
Qed.

(** The email is taken: the handler replies and stops. *)
Lemma register_duplicate existing :
  findOne_fault e = None ->
  List.find (matches_query (email_query em)) (tickets w) = Some existing ->
  register_endpoint toLowerCase req e w
  = (Ok duplicate_email_reply,
     after w [CallFindOne (email_query em)]
       [ConsoleLog (MsgAttempt (Some em)); ConsoleLog (MsgDuplicate (Some em))]
       1).
Proof.
  intros Hfault Hfind. unfold register_endpoint. rewrite Hvalid.
  destruct req as [b file], w. cbn [req_body req_file tickets] in *.
  step. rewrite Hemail. step. rewrite Hfault, Hfind. step. tidy.
Qed.

(** The upload fails: the catch block replies 500. *)
Lemma register_upload_failure inner :
  findOne_fault e = None ->
  List.find (matches_query (email_query em)) (tickets w) = None ->
  imgbb_outcome (imgbb e) = Throw inner ->
  register_endpoint toLowerCase req e w
  = (Ok (failure_reply (lit "Failed to upload image to ImgBB: "
                        ++ err_message inner)),
     after w
       [CallFindOne (email_query em); CallUuidv4;
        CallImgBB (buffer f) (upload_name e w)]
       [ConsoleLog (MsgAttempt (Some em));
        ConsoleLog (MsgTicketIds (next_uuid e)
                      (generateShortTicketId (next_uuid e)));
        ConsoleLog MsgUploading;
        ConsoleError (MsgImgBBError (err_message inner));
        ConsoleError (MsgRegistrationError
                        (lit "Failed to upload image to ImgBB: "
                         ++ err_message inner))] 2).
Proof.
  intros Hfault Hfind Hup. unfold register_endpoint. rewrite Hvalid.
  destruct req as [b file], w. cbn [req_body req_file tickets ticks] in *.
  step. rewrite Hemail. step. rewrite Hfault, Hfind. step.
  subst file. step. rewrite uploadToImgBB_run, Hup. step. tidy.
Qed.

(** The upload succeeds and the insert is refused, by a fault of the store
    or by one of its unique indexes. *)
Lemma register_insert_failure up err :
  findOne_fault e = None ->
  List.find (matches_query (email_query em)) (tickets w) = None ->
  imgbb_outcome (imgbb e) = Ok up ->
  let doc := built_document toLowerCase (req_body req) (next_uuid e)
               (generateShortTicketId (next_uuid e)) up
               (clock e (2 + ticks w)) (clock e (3 + ticks w)) in
  match insertOne_fault e with
  | Some fault => err = fault
  | None => existsb (clashes doc) (tickets w) = true
            /\ err = duplicate_key_error
  end ->
  register_endpoint toLowerCase req e w
  = (Ok (error_reply err),
     after w
       [CallFindOne (email_query em); CallUuidv4;
        CallImgBB (buffer f) (upload_name e w); CallInsertOne doc]
       [ConsoleLog (MsgAttempt (Some em));
        ConsoleLog (MsgTicketIds (next_uuid e)
                      (generateShortTicketId (next_uuid e)));
        ConsoleLog MsgUploading;
        ConsoleLog (MsgUploaded (up_url up));
        ConsoleError (MsgRegistrationError (err_message err))] 4).
Proof.
  intros Hfault Hfind Hup doc Hins. subst doc.
  unfold register_endpoint. rewrite Hvalid.
  pose proof (fun full short up' e' w' =>
                registrationDoc_run req full short up' e' w' Hvalid) as Hdoc.
  destruct req as [b file], w. cbn [req_body req_file tickets ticks] in *.
  step. rewrite Hemail. step. rewrite Hfault, Hfind. step.
  subst file. step. rewrite uploadToImgBB_run, Hup. step.
  rewrite (imgbb_outcome_success _ _ Hup). cbn [negb]. step.
  rewrite Hdoc. step. cbn [Nat.add] in Hins.
  destruct (insertOne_fault e) as [fault|].
  - subst err. step. tidy.
  - destruct Hins as [-> ->]. step. tidy.
Qed.

(** The upload and the insert succeed: the document is stored with its
    [_id], the mirror is queued and the handler replies 201. *)
Lemma register_success up :
  findOne_fault e = None ->
  List.find (matches_query (email_query em)) (tickets w) = None ->
  imgbb_outcome (imgbb e) = Ok up ->
  let doc := built_document toLowerCase (req_body req) (next_uuid e)
               (generateShortTicketId (next_uuid e)) up
               (clock e (2 + ticks w)) (clock e (3 + ticks w)) in
  let stored := <["_id"%string := VObjectId (next_objectId e)]> doc in
  insertOne_fault e = None ->
  existsb (clashes doc) (tickets w) = false ->
  register_endpoint toLowerCase req e w
  = (Ok (success_reply (next_uuid e) (generateShortTicketId (next_uuid e))
           (trim (toLowerCase em))),
     World (tickets w ++ [stored])
       (calls w
        ++ [CallFindOne (email_query em); CallUuidv4;
            CallImgBB (buffer f) (upload_name e w); CallInsertOne doc])
       (console w
        ++ [ConsoleLog (MsgAttempt (Some em));
            ConsoleLog (MsgTicketIds (next_uuid e)
                          (generateShortTicketId (next_uuid e)));
            ConsoleLog MsgUploading;
            ConsoleLog (MsgUploaded (up_url up));
            ConsoleLog (MsgSuccess (Some em)
                          (clock e (4 + ticks w) - clock e (ticks w)))])
       (5 + ticks w)
       (immediates w ++ [stored])).
Proof.
  intros Hfault Hfind Hup doc stored Hins Hclash. subst stored doc.
  unfold register_endpoint. rewrite Hvalid.
  pose proof (fun full short up' e' w' =>
                registrationDoc_run req full short up' e' w' Hvalid) as Hdoc.
  destruct req as [b file], w. cbn [req_body req_file tickets ticks] in *.
  step. rewrite Hemail. step. rewrite Hfault, Hfind. step.
  subst file. step. rewrite uploadToImgBB_run, Hup. step.
  rewrite (imgbb_outcome_success _ _ Hup). cbn [negb]. step.
  rewrite Hdoc. step. cbn [Nat.add] in Hclash. rewrite Hins, Hclash. step.
  tidy.
Qed.

End Paths.

(** Every way a validated submission can go through the handler. *)
Lemma register_cases req e w :
  validateRegistration toLowerCase req = Next ->
  exists em f,
    email (req_body req) = Some em /\ req_file req = Some f
    /\ email_shape em
    /\ let q := email_query em in
       let run := register_endpoint toLowerCase req e w in
       (exists err ls,
           findOne_fault e = Some err
           /\ run = (Ok (error_reply err), after w [CallFindOne q] ls 1))
       \/ (exists existing ls,
              findOne_fault e = None
              /\ List.find (matches_query q) (tickets w) = Some existing
              /\ run = (Ok duplicate_email_reply,
                        after w [CallFindOne q] ls 1))
       \/ (findOne_fault e = None
           /\ List.find (matches_query q) (tickets w) = None
           /\ ((exists inner ls,
                   imgbb_outcome (imgbb e) = Throw inner
                   /\ run
                      = (Ok (failure_reply
                               (lit "Failed to upload image to ImgBB: "
                                ++ err_message inner)),
                         after w
                           [CallFindOne q; CallUuidv4;
                            CallImgBB (buffer f) (upload_name e w)] ls 2))
               \/ (exists up,
                      imgbb_outcome (imgbb e) = Ok up
                      /\ let doc :=
                           built_document toLowerCase (req_body req)
                             (next_uuid e)
                             (generateShortTicketId (next_uuid e)) up
                             (clock e (2 + ticks w)) (clock e (3 + ticks w)) in
                         let stored :=
                           <["_id"%string := VObjectId (next_objectId e)]>
                             doc in
                         (exists err ls,
                             run
                             = (Ok (error_reply err),
                                after w
                                  [CallFindOne q; CallUuidv4;
                                   CallImgBB (buffer f) (upload_name e w);
                                   CallInsertOne doc] ls 4))
                         \/ (insertOne_fault e = None
                             /\ existsb (clashes doc) (tickets w) = false
                             /\ exists ls,
                                 run
                                 = (Ok (success_reply (next_uuid e)
                                          (generateShortTicketId (next_uuid e))
                                          (trim (toLowerCase em))),
                                    World (tickets w ++ [stored])
                                      (calls w
                                       ++ [CallFindOne q; CallUuidv4;
                                           CallImgBB (buffer f)
                                             (upload_name e w);
                                           CallInsertOne doc])
                                      (console w ++ ls) (5 + ticks w)
                                      (immediates w ++ [stored])))))).
Proof.
  intros Hv.
  destruct (validated_fields req Hv)
    as (fn & em & ph & co & br & ge & st & f & _ & Hem & _ & _ & _ & _ & _
        & Hf & Hshape & _).
  exists em, f. repeat split; try done. intros q run. subst q run.
  destruct (findOne_fault e) as [err|] eqn:Hfault.
  { left. eexists _, _. split; [done|].
    by eapply register_find_fault. }
  right.
  destruct (List.find (matches_query (email_query em)) (tickets w))
    as [existing|] eqn:Hfind.
  { left. eexists _, _. split; [done|]. split; [done|].
    by eapply register_duplicate. }
  right. split; [done|]. split; [done|].
  destruct (imgbb_outcome (imgbb e)) as [up | inner] eqn:Hup.
  2:{ left. eexists _, _. split; [done|]. by eapply register_upload_failure. }
  right. exists up. split; [done|]. intros doc stored.
  destruct (insertOne_fault e) as [fault|] eqn:Hins.
  { left. eexists _, _.
    eapply (register_insert_failure _ _ _ _ _ Hv Hem Hf up fault); try done.
    by rewrite Hins. }
  destruct (existsb (clashes doc) (tickets w)) eqn:Hclash.
  { left. eexists _, _.
    eapply (register_insert_failure _ _ _ _ _ Hv Hem Hf up); try done.
    rewrite Hins. by split. }
  right. split; [done|]. split; [done|]. eexists.
  by eapply (register_success _ _ _ _ _ Hv Hem Hf up).
Qed.

End Pipeline.


Example isoString_sample :
  isoString 1700000000002 = lit "2023-11-14T22:13:20.002Z"
  /\ isoString 0 = lit "1970-01-01T00:00:00.000Z"
  /\ isoString (-1) = lit "1969-12-31T23:59:59.999Z"
  /\ isoString 951782400000 = lit "2000-02-29T00:00:00.000Z".
Proof. vm_compute. repeat split. Qed.

(** ** The guarantees of the specification *)

Section Guarantees.

Variable toLowerCase : jsstring -> jsstring.
Variable toISOString : Z -> jsstring.




Lemma issued_same w : issued w w = [].
Proof. unfold issued. apply skipn_all. Qed.

Lemma issued_after w cs ls n : issued w (after w cs ls n) = cs.
Proof.
  unfold issued, after. cbn [calls].
  rewrite skipn_app, skipn_all, Nat.sub_diag. done.
Qed.

Lemma inserted_after w cs ls n : inserted w (after w cs ls n) = [].
Proof. unfold inserted, after. cbn [tickets]. apply skipn_all. Qed.


Lemma split_head sep piece rest :
  forallb (fun c => negb (c =? sep)) piece = true ->
  split sep (piece ++ sep :: rest) !! 0%nat = Some piece.
Proof.
  induction piece as [|c piece IH]; simpl.
  - intros _. by rewrite N.eqb_refl.
  - intros H. apply andb_true_iff in H as [Hc Hp].
    apply negb_true_iff in Hc. rewrite Hc. specialize (IH Hp).
    destruct (split sep (piece ++ sep :: rest)) as [|p ps]; [done|].
    simpl in IH. by injection IH as ->.
Qed.

Lemma lower_hex_not_hyphen c : isLowerHex c = true -> negb (isHyphen c) = true.
Proof.
  unfold isLowerHex, isHyphen. intros H. apply negb_true_iff, N.eqb_neq.
  intros ->. vm_compute in H. discriminate.
Qed.

Lemma uuid_first_segment u :
  isUuidV4 u = true ->
  exists rest,
    u = firstn 8 u ++ N_of_ascii "-" :: rest
    /\ length (firstn 8 u) = 8%nat
    /\ forallb isLowerHex (firstn 8 u) = true.
Proof.
  unfold isUuidV4. intros H. repeat (apply andb_true_iff in H as [H ?]).
  apply Nat.eqb_eq in H.
  assert (Hhex : forallb isLowerHex (slice 0 8 u) = true) by done.
  assert (Hhy : forallb isHyphen (slice 8 9 u) = true) by done.
  unfold slice in Hhex, Hhy. cbn [Nat.sub skipn] in Hhex.
  change (9 - 8)%nat with 1%nat in Hhy.
  destruct (skipn 8 u) as [|c rest] eqn:Hskip.
  { apply (f_equal length) in Hskip. rewrite length_skipn, H in Hskip.
    discriminate. }
  cbn in Hhy. rewrite andb_true_r in Hhy. apply N.eqb_eq in Hhy. subst c.
  exists rest. repeat split.
  - rewrite <- Hskip. symmetry. apply firstn_skipn.
  - rewrite length_firstn, H. reflexivity.
  - exact Hhex.
Qed.

Lemma uuid_head u :
  isUuidV4 u = true -> exists c rest, u = c :: rest /\ isLowerHex c = true.
Proof.
  intros H. destruct (uuid_first_segment u H) as (rest & Hu & Hlen & Hhex).
  destruct u as [|c u']; [discriminate|]. exists c, u'. split; [done|].
  cbn in Hhex. by apply andb_true_iff in Hhex as [-> _].
Qed.

(** A short ticket id is never the text of a UUID. *)
Lemma short_id_not_uuid t u : isUuidV4 u = true -> generateShortTicketId t <> u.
Proof.
  intros Hu Heq. destruct (uuid_head u Hu) as (c & rest & -> & Hc).
  unfold generateShortTicketId in Heq. cbn in Heq. injection Heq as <- _.
  vm_compute in Hc. discriminate.
Qed.

Lemma generateShortTicketId_uuid u :
  isUuidV4 u = true ->
  split (N_of_ascii "-") u !! 0%nat = Some (firstn 8 u)
  /\ generateShortTicketId u = lit "THM-" ++ firstn 8 u.
Proof.
  intros H. destruct (uuid_first_segment u H) as (rest & Hu & Hlen & Hhex).
  assert (Hhead : split (N_of_ascii "-") u !! 0%nat = Some (firstn 8 u)).
  { rewrite Hu at 1. apply split_head. rewrite forallb_forall in *.
    intros c Hc. apply (lower_hex_not_hyphen c). by apply Hhex. }
  split; [done|]. unfold generateShortTicketId. by rewrite Hhead.
Qed.

Lemma register_invalid req e w r :
  validateRegistration toLowerCase req = Reply r ->
  register_endpoint toLowerCase req e w = (Ok r, w) /\ status r = 400%Z.
Proof.
  intros Hv. unfold register_endpoint. rewrite Hv. split; [done|].
  unfold validateRegistration in Hv.
  destruct (0 <? length (validation_errors toLowerCase req))%nat;
    [|discriminate].
  by injection Hv as <-.
Qed.

Lemma error_reply_status err :
  status (error_reply err) = 400%Z \/ status (error_reply err) = 500%Z.
Proof. unfold error_reply. case_bool_decide; auto. Qed.

Lemma issued_app w ts cs ls n qs :
  issued w (World ts (calls w ++ cs) ls n qs) = cs.
Proof.
  unfold issued. cbn [calls].
  rewrite skipn_app, skipn_all, Nat.sub_diag. done.
Qed.

Lemma inserted_app w ds cs ls n qs :
  inserted w (World (tickets w ++ ds) cs ls n qs) = ds.
Proof.
  unfold inserted. cbn [tickets].
  rewrite skipn_app, skipn_all, Nat.sub_diag. done.
Qed.

Lemma run_eq {A} (a a' : A) (w w' : world) :
  (Ok a, w) = (Ok a', w') -> a = a' /\ w = w'.
Proof. by intros [= -> ->]. Qed.

(** A 201 reply is only sent at the end of the successful path. *)
Lemma register_created req e w reply w' :
  register_endpoint toLowerCase req e w = (Ok reply, w') ->
  status reply = 201%Z ->
  exists em f up ls,
    validateRegistration toLowerCase req = Next
    /\ email (req_body req) = Some em /\ req_file req = Some f
    /\ imgbb_outcome (imgbb e) = Ok up
    /\ let doc :=
         built_document toLowerCase (req_body req) (next_uuid e)
           (generateShortTicketId (next_uuid e)) up
           (clock e (2 + ticks w)) (clock e (3 + ticks w)) in
       let stored := <["_id"%string := VObjectId (next_objectId e)]> doc in
       reply = success_reply (next_uuid e)
                 (generateShortTicketId (next_uuid e)) (trim (toLowerCase em))
       /\ w' = World (tickets w ++ [stored])
                 (calls w
                  ++ [CallFindOne (QEq "email" (VStr (toLowerCase em)));
                      CallUuidv4;
                      CallImgBB (buffer f)
                        (lit "transaction_"
                         ++ generateShortTicketId (next_uuid e) ++ lit "_"
                         ++ lit (pretty (clock e (S (ticks w)))));
                      CallInsertOne doc])
                 (console w ++ ls) (5 + ticks w) (immediates w ++ [stored]).
Proof.
  intros Hrun Hst.
  destruct (validateRegistration toLowerCase req) as [r|] eqn:Hv.
  { destruct (register_invalid req e w r Hv) as [Hr H400].
    rewrite Hr in Hrun. apply run_eq in Hrun as [<- <-]. congruence. }
  destruct (register_cases toLowerCase req e w Hv)
    as (em & f & Hem & Hf & _ & Hcases).
  cbv zeta in Hcases.
  destruct Hcases as [(err & ls & _ & Hr)
                     | [(existing & ls & _ & _ & Hr)
                       | (_ & _ & [(inner & ls & _ & Hr)
                                  | (up & Hup & [(err & ls & Hr)
                                                | (_ & _ & ls & Hr)])])]];
    rewrite Hr in Hrun; apply run_eq in Hrun as [<- <-].
  - destruct (error_reply_status err); congruence.
  - discriminate.
  - discriminate.
  - destruct (error_reply_status err); congruence.
  - exists em, f, up, ls. repeat split; done.
Qed.

(** What the handler hands to [insertOne] is the document it built, and
    what the collection gains is that document with its [_id]. *)
Lemma register_insert_call req e w doc :
  In (CallInsertOne doc) (issued w (snd (register_endpoint toLowerCase req e w))) ->
  validateRegistration toLowerCase req = Next
  /\ exists up,
      imgbb_outcome (imgbb e) = Ok up
      /\ doc = built_document toLowerCase (req_body req) (next_uuid e)
                 (generateShortTicketId (next_uuid e)) up
                 (clock e (2 + ticks w)) (clock e (3 + ticks w)).
Proof.
  intros Hin.
  destruct (validateRegistration toLowerCase req) as [r|] eqn:Hv.
  { destruct (register_invalid req e w r Hv) as [Hr _].
    rewrite Hr, issued_same in Hin. destruct Hin. }
  split; [done|].
  destruct (register_cases toLowerCase req e w Hv)
    as (em & f & Hem & Hf & _ & Hcases).
  cbv zeta in Hcases.
  destruct Hcases as [(err & ls & _ & Hr)
                     | [(existing & ls & _ & _ & Hr)
                       | (_ & _ & [(inner & ls & _ & Hr)
                                  | (up & Hup & [(err & ls & Hr)
                                                | (_ & _ & ls & Hr)])])]];
    rewrite Hr in Hin; cbn [snd] in Hin;
    rewrite ?issued_after, ?issued_app in Hin; cbn [In] in Hin;
    repeat destruct Hin as [Hin | Hin];
    lazymatch type of Hin with
    | CallInsertOne _ = CallInsertOne _ => injection Hin as <-; by exists up
    | False => destruct Hin
    | _ => discriminate Hin
    end.
Qed.

Lemma register_inserted req e w stored :
  In stored (inserted w (snd (register_endpoint toLowerCase req e w))) ->
  exists doc,
    In (CallInsertOne doc)
      (issued w (snd (register_endpoint toLowerCase req e w)))
    /\ stored = <["_id"%string := VObjectId (next_objectId e)]> doc.
Proof.
  intros Hin.
  destruct (validateRegistration toLowerCase req) as [r|] eqn:Hv.
  { destruct (register_invalid req e w r Hv) as [Hr _].
    rewrite Hr in Hin. unfold inserted in Hin. cbn [snd] in Hin.
    rewrite skipn_all in Hin. destruct Hin. }
  destruct (register_cases toLowerCase req e w Hv)
    as (em & f & Hem & Hf & _ & Hcases).
  cbv zeta in Hcases.
  destruct Hcases as [(err & ls & _ & Hr)
                     | [(existing & ls & _ & _ & Hr)
                       | (_ & _ & [(inner & ls & _ & Hr)
                                  | (up & Hup & [(err & ls & Hr)
                                                | (_ & _ & ls & Hr)])])]];
    rewrite Hr in Hin |- *; cbn [snd] in Hin |- *;
    rewrite ?inserted_after, ?inserted_app in Hin; cbn [In] in Hin;
    try done.
  destruct Hin as [<- | []]. eexists. split; [|reflexivity].
  rewrite issued_app. cbn [In]. auto.
Qed.

Lemma built_document_fields b full short up created updated :
  let d := built_document toLowerCase b full short up created updated in
  d !! "ticketId"%string = Some (VStr full)
  /\ d !! "shortTicketId"%string = Some (VStr short)
  /\ d !! "email"%string
     = Some (of_field ((fun s => trim (toLowerCase s)) <$> email b))
  /\ d !! "ieeeStatus"%string = Some (of_field (ieeeStatus b))
  /\ d !! "ieeeMembershipId"%string
     = Some (if strict_eq (of_field (ieeeStatus b)) (VStr (lit "member"))
             then of_field (trim <$> ieeeMembershipId b) else VNull)
  /\ d !! "agreeToTerms"%string
     = Some (VBool (strict_eq (agreeToTerms b) (VBool true)
                    || strict_eq (agreeToTerms b) (VStr (lit "true"))))
  /\ d !! "status"%string = Some (VStr (lit "pending"))
  /\ d !! "createdAt"%string = Some (VDate created)
  /\ d !! "updatedAt"%string = Some (VDate updated)
  /\ d !! "_id"%string = None.
Proof. repeat split; vm_compute; reflexivity. Qed.

(** C4: for a version-4 UUID the short ticket id is ["THM-"] followed by
    the first hyphen-separated segment of the UUID, which is its first
    eight characters, all lower-case hexadecimal digits; it is computed
    from the ticket id alone, so the same ticket id always gives the same
    short id, and the ids the handler returns with a 201 reply are the
    generated UUID and the short id derived from it. *)
Theorem short_ticket_id_is_derived_from_uuid (uuid : jsstring) :
  isUuidV4 uuid = true ->
  split (N_of_ascii "-") uuid !! 0%nat = Some (firstn 8 uuid)
  /\ generateShortTicketId uuid = lit "THM-" ++ firstn 8 uuid
  /\ length (firstn 8 uuid) = 8%nat
  /\ forallb isLowerHex (firstn 8 uuid) = true
  /\ (forall again, again = uuid ->
        generateShortTicketId again = generateShortTicketId uuid)
  /\ (forall req e w reply w',
        next_uuid e = uuid ->
        register_endpoint toLowerCase req e w = (Ok reply, w') ->
        status reply = 201%Z ->
        exists ids,
          data reply = Some ids
          /\ ids !! "ticketId"%string = Some (VStr uuid)
          /\ ids !! "shortTicketId"%string
             = Some (VStr (generateShortTicketId uuid))).
Proof.
  intros Hu. destruct (generateShortTicketId_uuid uuid Hu) as [Hseg Hshort].
  destruct (uuid_first_segment uuid Hu) as (rest & _ & Hlen & Hhex).
  repeat split; try done.
  - by intros again ->.
  - intros req e w reply w' <- Hrun Hst.
    destruct (register_created req e w reply w' Hrun Hst)
      as (em & f & up & ls & _ & _ & _ & _ & Hreply & _).
    rewrite Hreply. eexists. split; [reflexivity|].
    split; vm_compute; reflexivity.
Qed.

(** C5: in every record the endpoint adds to the collection the
    membership id is non-null exactly when the submitted status is "member":
    for "non-member" it is null whatever was submitted, and for "member" it
    is the submitted id, trimmed, which has at least five characters. *)
Theorem membership_id_follows_status (req : request) (e : env) (w : world)
  (stored : document) :
  In stored (inserted w (snd (register_endpoint toLowerCase req e w))) ->
  exists st v,
    ieeeStatus (req_body req) = Some st
    /\ (st = lit "member" \/ st = lit "non-member")
    /\ stored !! "ieeeStatus"%string = Some (VStr st)
    /\ stored !! "ieeeMembershipId"%string = Some v
    /\ (v <> VNull <-> st = lit "member")
    /\ (st = lit "non-member" -> v = VNull)
    /\ (st = lit "member" ->
        exists id, ieeeMembershipId (req_body req) = Some id
                   /\ v = VStr (trim id) /\ (5 <= length (trim id))%nat).
Proof.
  intros Hin. destruct (register_inserted req e w stored Hin) as (doc & Hcall & ->).
  destruct (register_insert_call req e w doc Hcall) as (Hv & up & _ & ->).
  destruct (validated_fields toLowerCase req Hv)
    as (fn & em & ph & co & br & ge & st & f & _ & _ & _ & _ & _ & _ & Hst
        & _ & _ & Hmem & Hid & _).
  pose proof (built_document_fields (req_body req) (next_uuid e)
                (generateShortTicketId (next_uuid e)) up
                (clock e (2 + ticks w)) (clock e (3 + ticks w))) as Hd.
  cbv zeta in Hd. destruct Hd as (_ & _ & _ & Hds & Hdm & _).
  rewrite Hst in Hds, Hdm. cbn [of_field] in Hds, Hdm.
  exists st. eexists. split; [done|]. split; [done|].
  split; [by rewrite lookup_insert_ne|].
  split; [by rewrite lookup_insert_ne|].
  unfold strict_eq. destruct Hmem as [-> | ->].
  - rewrite bool_decide_eq_true_2 by done.
    destruct (Hid eq_refl) as (id & Hsub & Hlen). rewrite Hsub.
    cbn [fmap option_fmap option_map of_field]. repeat split; try done.
    exists id. done.
  - rewrite bool_decide_eq_false_2 by (intros [= H]; vm_compute in H; discriminate).
    repeat split; done.
Qed.


(** C2: when the handler has sent the screenshot to ImgBB and the upload
    raises an error, the reply is the 500 failure carrying the error's
    message, the collection is left as it was and no insert is attempted. *)
Theorem upload_failure_persists_nothing (req : request) (e : env) (w : world)
  (image : list N) (name : jsstring) (raised : js_error) :
  In (CallImgBB image name)
    (issued w (snd (register_endpoint toLowerCase req e w))) ->
  fst (uploadToImgBB image name e w) = Throw raised ->
  let (reply, w') := register_endpoint toLowerCase req e w in
  reply = Ok (failure_reply (err_message raised))
  /\ status (failure_reply (err_message raised)) = 500%Z
  /\ success (failure_reply (err_message raised)) = false
  /\ tickets w' = tickets w
  /\ inserted w w' = []
  /\ (forall doc, ~ In (CallInsertOne doc) (issued w w'))
  /\ immediates w' = immediates w.
Proof.
  intros Hin Hup. rewrite uploadToImgBB_run in Hup.
  destruct (imgbb_outcome (imgbb e)) as [up | inner] eqn:Hout;
    [discriminate|].
  cbn [fst] in Hup. injection Hup as <-.
  destruct (validateRegistration toLowerCase req) as [r|] eqn:Hv.
  { destruct (register_invalid req e w r Hv) as [Hr _].
    rewrite Hr, issued_same in Hin. destruct Hin. }
  destruct (register_cases toLowerCase req e w Hv)
    as (em & f & _ & _ & _ & Hcases).
  cbv zeta in Hcases.
  destruct Hcases as [(err & ls & _ & Hr)
                     | [(existing & ls & _ & _ & Hr)
                       | (_ & _ & [(inner' & ls & Hout' & Hr)
                                  | (up & Hup & _)])]];
    [| | |congruence];
    rewrite Hr in Hin |- *; cbn [snd] in Hin;
    rewrite issued_after in Hin; cbn [In] in Hin.
  - destruct Hin as [Hin | []]. discriminate Hin.
  - destruct Hin as [Hin | []]. discriminate Hin.
  - rewrite Hout in Hout'. injection Hout' as <-.
    rewrite issued_after, inserted_after. repeat split; try done.
    intros doc Hdoc. cbn [In] in Hdoc.
    destruct Hdoc as [H | [H | [H | []]]]; discriminate H.
Qed.


(** *** The collection and the lookup route *)

Lemma NoDup_map_inj {A B} (g : A -> B) (l : list A) a b :
  NoDup (map g l) -> In a l -> In b l -> g a = g b -> a = b.
Proof.
  induction l as [|x l IH]; simpl; [done|].
  intros Hnd Ha Hb Hg. inversion Hnd as [|? ? Hx Hl]; subst.
  destruct Ha as [-> | Ha], Hb as [-> | Hb]; try done.
  - destruct Hx. rewrite Hg. apply list_elem_of_In, in_map, Hb.
  - destruct Hx. rewrite <- Hg. apply list_elem_of_In, in_map, Ha.
  - by apply IH.
Qed.

Lemma find_only {A} (p : A -> bool) (l : list A) d :
  In d l -> p d = true -> (forall x, In x l -> p x = true -> x = d) ->
  List.find p l = Some d.
Proof.
  induction l as [|x l IH]; simpl; [done|]. intros Hin Hp Hall.
  destruct (p x) eqn:Hx.
  - f_equal. apply Hall; auto.
  - destruct Hin as [-> | Hin]; [congruence|]. apply IH; auto.
Qed.

Lemma find_nothing {A} (p : A -> bool) (l : list A) :
  (forall x, In x l -> p x = false) -> List.find p l = None.
Proof.
  induction l as [|x l IH]; simpl; [done|]. intros Hall.
  rewrite (Hall x) by auto. apply IH. auto.
Qed.

Lemma prop_lookup (d : document) k v : d !! k = Some v -> prop d k = v.
Proof. unfold prop. by intros ->. Qed.

(** In a well-keyed store a document is the only one that either of its
    two identifiers selects. *)
Lemma find_by_either_id store d t id :
  store_ok store -> In d store ->
  d !! "ticketId"%string = Some (VStr t) ->
  id = t \/ d !! "shortTicketId"%string = Some (VStr id) ->
  List.find (matches_query (QOr (QEq "ticketId" (VStr id))
                              (QEq "shortTicketId" (VStr id)))) store
  = Some d.
Proof.
  intros (Hkeyed & Hnd1 & Hnd2) Hin Ht Hid.
  rewrite List.Forall_forall in Hkeyed.
  destruct (Hkeyed d Hin) as (t0 & Hu & Ht0 & Hs0).
  assert (t0 = t) as -> by congruence.
  apply find_only; [done| |].
  - cbn [matches_query]. unfold strict_eq. apply orb_true_iff.
    destruct Hid as [-> | Hs].
    + left. apply bool_decide_eq_true. by apply prop_lookup.
    + right. apply bool_decide_eq_true. by apply prop_lookup.
  - intros d' Hin' Hm. cbn [matches_query] in Hm. unfold strict_eq in Hm.
    destruct (Hkeyed d' Hin') as (t' & Hu' & Ht' & Hs').
    rewrite (prop_lookup _ _ _ Ht'), (prop_lookup _ _ _ Hs') in Hm.
    apply orb_true_iff in Hm as [Hm | Hm]; apply bool_decide_eq_true in Hm;
      injection Hm as Hm.
    + (* d' is selected by its ticketId *)
      destruct Hid as [-> | Hs].
      * subst t'. apply (NoDup_map_inj _ _ _ _ Hnd1 Hin' Hin).
        by rewrite (prop_lookup _ _ _ Ht'), (prop_lookup _ _ _ Ht).
      * assert (id = generateShortTicketId t) by congruence. subst id t'.
        by destruct (short_id_not_uuid t _ Hu').
    + (* d' is selected by its shortTicketId *)
      destruct Hid as [-> | Hs].
      * by destruct (short_id_not_uuid t' _ Hu).
      * apply (NoDup_map_inj _ _ _ _ Hnd2 Hin' Hin).
        rewrite (prop_lookup _ _ _ Hs'), (prop_lookup _ _ _ Hs). by f_equal.
Qed.

Lemma lookup_endpoint_run id e w :
  findOne_fault e = None ->
  let q := QOr (QEq "ticketId" (VStr id)) (QEq "shortTicketId" (VStr id)) in
  lookup_endpoint id e w
  = (Ok match List.find (matches_query q) (tickets w) with
        | Some registration => found_reply registration
        | None => not_found_reply
        end,
     after w [CallFindOne q] [] 0).
Proof.
  intros Hfault q. subst q. destruct w. run. rewrite Hfault. unfold after.
  cbn [tickets calls console ticks immediates Nat.add].
  rewrite app_nil_r.
  by destruct (List.find _ _).
Qed.

(** C7: with the collection keyed as the indexes and the pipeline keep it,
    looking a stored record up by its [ticketId] or by its [shortTicketId]
    gives the same 200 reply, whose data is that record without its
    [transactionScreenshotDeleteUrl] and with every other property
    unchanged; an identifier that no record carries gives the 404 reply
    "Registration not found".  The lookup leaves the collection as it is. *)
Theorem lookup_by_either_identifier (e : env) (w : world) :
  findOne_fault e = None ->
  store_ok (tickets w) ->
  (forall d t s,
      In d (tickets w) ->
      d !! "ticketId"%string = Some (VStr t) ->
      d !! "shortTicketId"%string = Some (VStr s) ->
      fst (lookup_endpoint t e w) = Ok (found_reply d)
      /\ fst (lookup_endpoint s e w) = Ok (found_reply d))
  /\ (forall d,
        status (found_reply d) = 200%Z /\ success (found_reply d) = true
        /\ exists safeData,
            data (found_reply d) = Some safeData
            /\ forall k,
                safeData !! k
                = if decide (k = "transactionScreenshotDeleteUrl"%string)
                  then None else d !! k)
  /\ (forall id,
        (forall d, In d (tickets w) ->
                   prop d "ticketId" <> VStr id
                   /\ prop d "shortTicketId" <> VStr id) ->
        fst (lookup_endpoint id e w) = Ok not_found_reply)
  /\ not_found_reply
     = Response 404 false (Some (lit "Registration not found")) None None None
  /\ (forall id, tickets (snd (lookup_endpoint id e w)) = tickets w).
Proof.
  intros Hfault Hok. repeat split.
  - rewrite lookup_endpoint_run by done. cbn [fst].
    by rewrite (find_by_either_id _ d t t Hok) by auto.
  - rewrite lookup_endpoint_run by done. cbn [fst].
    by rewrite (find_by_either_id _ d t s Hok) by auto.
  - eexists. split; [reflexivity|]. intros k. rewrite lookup_delete.
    repeat case_decide; congruence.
  - intros id Hnone. rewrite lookup_endpoint_run by done. cbn [fst].
    rewrite find_nothing; [done|]. intros d Hin.
    destruct (Hnone d Hin) as [H1 H2]. cbn [matches_query]. unfold strict_eq.
    apply orb_false_iff. split; by apply bool_decide_eq_false.
  - intros id. by rewrite lookup_endpoint_run.
Qed.

Lemma no_clash doc store k :
  existsb (clashes doc) store = false -> In k unique_fields ->
  ~ In (prop doc k) (map (fun d => prop d k) store).
Proof.
  intros Hclash Hk Hin. apply in_map_iff in Hin as (d' & Heq & Hin).
  assert (Hc : clashes doc d' = true).
  { unfold clashes. apply existsb_exists. exists k. split; [done|].
    unfold strict_eq. by apply bool_decide_eq_true. }
  assert (Hex : existsb (clashes doc) store = true)
    by (apply existsb_exists; eauto).
  congruence.
Qed.

Lemma NoDup_map_snoc {A B} (g : A -> B) (l : list A) x :
  NoDup (map g l) -> ~ In (g x) (map g l) -> NoDup (map g (l ++ [x])).
Proof.
  intros Hnd Hx. rewrite map_app. apply NoDup_app. split; [done|].
  split; [|apply NoDup_singleton].
  intros y Hy Hy'. apply list_elem_of_singleton in Hy'. subst y.
  by apply Hx, list_elem_of_In.
Qed.

(** The registration route keeps the collection well keyed, as long as
    [uuidv4] returns version-4 UUIDs. *)
Lemma register_keeps_store_ok req e w :
  isUuidV4 (next_uuid e) = true ->
  store_ok (tickets w) ->
  store_ok (tickets (snd (register_endpoint toLowerCase req e w))).
Proof.
  intros Hu Hok.
  destruct (validateRegistration toLowerCase req) as [r|] eqn:Hv.
  { destruct (register_invalid req e w r Hv) as [Hr _]. by rewrite Hr. }
  destruct (register_cases toLowerCase req e w Hv)
    as (em & f & _ & _ & _ & Hcases).
  cbv zeta in Hcases.
  destruct Hcases as [(err & ls & _ & Hr)
                     | [(existing & ls & _ & _ & Hr)
                       | (_ & _ & [(inner & ls & _ & Hr)
                                  | (up & Hup & [(err & ls & Hr)
                                                | (_ & Hclash & ls & Hr)])])]];
    rewrite Hr; cbn [snd after tickets]; try done.
  destruct Hok as (Hkeyed & Hnd1 & Hnd2).
  pose proof (built_document_fields (req_body req) (next_uuid e)
                (generateShortTicketId (next_uuid e)) up
                (clock e (2 + ticks w)) (clock e (3 + ticks w))) as Hd.
  cbv zeta in Hd. destruct Hd as (Hdt & Hds & _).
  split; [|split].
  - apply Forall_app. split; [done|]. apply Forall_cons. split; [|done].
    exists (next_uuid e). split; [done|].
    split; by rewrite lookup_insert_ne.
  - apply NoDup_map_snoc; [done|]. unfold prop at 1.
    rewrite lookup_insert_ne by done. fold (prop (built_document toLowerCase
      (req_body req) (next_uuid e) (generateShortTicketId (next_uuid e)) up
      (clock e (2 + ticks w)) (clock e (3 + ticks w))) "ticketId").
    apply no_clash; [done|]. cbn. auto.
  - apply NoDup_map_snoc; [done|]. unfold prop at 1.
    rewrite lookup_insert_ne by done. fold (prop (built_document toLowerCase
      (req_body req) (next_uuid e) (generateShortTicketId (next_uuid e)) up
      (clock e (2 + ticks w)) (clock e (3 + ticks w))) "shortTicketId").
    apply no_clash; [done|]. cbn. auto.
Qed.

Lemma store_ok_nil : store_ok [].
Proof. repeat split; constructor. Qed.

(** *** The sheet mirror *)

Lemma register_ignores_sheets req e w client sheet_id sheet_range fault :
  register_endpoint toLowerCase req
    (with_sheets e client sheet_id sheet_range fault) w
  = register_endpoint toLowerCase req e w.
Proof.
  destruct (validateRegistration toLowerCase req) as [r|] eqn:Hv.
  { unfold register_endpoint. by rewrite Hv. }
  destruct (validated_fields toLowerCase req Hv)
    as (fn & em & ph & co & br & ge & st & f & _ & Hem & _ & _ & _ & _ & _
        & Hf & _).
  set (e' := with_sheets e client sheet_id sheet_range fault).
  destruct (findOne_fault e) as [err|] eqn:Hfault.
  { rewrite (register_find_fault toLowerCase req e' w em f Hv Hem Hf err Hfault).
    by rewrite (register_find_fault toLowerCase req e w em f Hv Hem Hf err Hfault). }
  destruct (List.find (matches_query (QEq "email" (VStr (toLowerCase em))))
              (tickets w)) as [existing|] eqn:Hfind.
  { rewrite (register_duplicate toLowerCase req e' w em f Hv Hem Hf existing
               Hfault Hfind).
    by rewrite (register_duplicate toLowerCase req e w em f Hv Hem Hf existing
                  Hfault Hfind). }
  destruct (imgbb_outcome (imgbb e)) as [up | inner] eqn:Hup.
  2:{ rewrite (register_upload_failure toLowerCase req e' w em f Hv Hem Hf
                 inner Hfault Hfind Hup).
      by rewrite (register_upload_failure toLowerCase req e w em f Hv Hem Hf
                    inner Hfault Hfind Hup). }
  pose (doc := built_document toLowerCase (req_body req) (next_uuid e)
                 (generateShortTicketId (next_uuid e)) up
                 (clock e (2 + ticks w)) (clock e (3 + ticks w))).
  destruct (insertOne_fault e) as [broken|] eqn:Hins.
  { assert (Hi : match insertOne_fault e with
                 | Some x => broken = x
                 | None => existsb (clashes doc) (tickets w) = true
                           /\ broken = duplicate_key_error
                 end) by (by rewrite Hins).
    rewrite (register_insert_failure toLowerCase req e' w em f Hv Hem Hf up
               broken Hfault Hfind Hup Hi).
    by rewrite (register_insert_failure toLowerCase req e w em f Hv Hem Hf up
                  broken Hfault Hfind Hup Hi). }
  destruct (existsb (clashes doc) (tickets w)) eqn:Hclash.
  { assert (Hi : match insertOne_fault e with
                 | Some x => duplicate_key_error = x
                 | None => existsb (clashes doc) (tickets w) = true
                           /\ duplicate_key_error = duplicate_key_error
                 end) by (by rewrite Hins).
    rewrite (register_insert_failure toLowerCase req e' w em f Hv Hem Hf up
               _ Hfault Hfind Hup Hi).
    by rewrite (register_insert_failure toLowerCase req e w em f Hv Hem Hf up
                  _ Hfault Hfind Hup Hi). }
  rewrite (register_success toLowerCase req e' w em f Hv Hem Hf up Hfault
             Hfind Hup Hins Hclash).
  by rewrite (register_success toLowerCase req e w em f Hv Hem Hf up Hfault
                Hfind Hup Hins Hclash).
Qed.

Lemma sheetRow_run d t e w :
  d !! "createdAt"%string = Some (VDate t) ->
  sheetRow toISOString d e w
  = (Ok [ prop d "ticketId"; prop d "shortTicketId"; prop d "fullName";
          prop d "email"; prop d "phone"; prop d "college"; prop d "branch";
          prop d "year"; prop d "gender"; prop d "accommodation";
          prop d "foodPreference"; prop d "ieeeStatus";
          js_or (prop d "ieeeMembershipId") (VStr []);
          prop d "ticketType"; prop d "transactionScreenshotUrl";
          prop d "status"; VStr (toISOString t) ], w).
Proof.
  intros Hc. unfold sheetRow. rewrite (prop_lookup _ _ _ Hc). reflexivity.
Qed.

Lemma sheetRow_world d e w : snd (sheetRow toISOString d e w) = w.
Proof.
  unfold sheetRow. destruct (prop d "createdAt"); reflexivity.
Qed.

(** The callback always ends normally; it touches neither the collection,
    nor the clock, nor the queue. *)
Lemma sheetsCallback_run d e w :
  exists cs ls,
    sheetsCallback toISOString d e w = (Ok tt, after w cs ls 0)
    /\ (sheets_configured e = false
        -> cs = [] /\ ls = [ConsoleLog MsgSheetsSkip])
    /\ (sheets_configured e = true ->
        match sheetRow toISOString d e w with
        | (Throw err, _) =>
            cs = []
            /\ ls = [ConsoleError (MsgSheetsError (prop d "shortTicketId")
                                     (err_message err))]
        | (Ok row, _) =>
            cs = [CallSheetsAppend (of_field (GOOGLE_SHEET_ID e))
                    (js_or (of_field (GOOGLE_SHEET_RANGE e))
                       (VStr (lit "Sheet1!A:Q"))) row]
            /\ ls = [match sheets_fault e with
                     | Some err =>
                         ConsoleError (MsgSheetsError (prop d "shortTicketId")
                                         (err_message err))
                     | None =>
                         ConsoleLog (MsgSheetsSynced (prop d "shortTicketId"))
                     end]
        end).
Proof.
  pose proof (sheetRow_world d e w) as Hw.
  unfold sheetsCallback, sheets_configured.
  cbv beta iota zeta delta [bind try_catch ask].
  destruct (sheets e), (truthy (of_field (GOOGLE_SHEET_ID e)));
    cbn [negb orb andb].
  2-4: (eexists [], _; split; [destruct w; unfold after; run;
                                by rewrite app_nil_r|]; split; done).
  destruct (sheetRow toISOString d e w) as [[row | err] w1].
  - cbn [snd] in Hw. subst w1. destruct w.
    destruct (sheets_fault e) as [err|] eqn:Hf; run; rewrite Hf;
      eexists _, _; (split; [unfold after; cbn; reflexivity|]); split; done.
  - cbn [snd] in Hw. subst w1. destruct w. run.
    eexists [], _. split; [unfold after; cbn; by rewrite app_nil_r|].
    split; done.
Qed.

Lemma run_queue_keeps_store e queue w :
  let w1 := fold_left (fun w' d => snd (sheetsCallback toISOString d e w'))
              queue w in
  tickets w1 = tickets w /\ immediates w1 = immediates w
  /\ ticks w1 = ticks w.
Proof.
  revert w. induction queue as [|d queue IH]; intros w; cbn [fold_left].
  - done.
  - destruct (sheetsCallback_run d e w) as (cs & ls & Hrun & _).
    rewrite Hrun. cbn [snd].
    destruct (IH (after w cs ls 0)) as (H1 & H2 & H3).
    by rewrite H1, H2, H3.
Qed.

(** Whatever the outcome, the records queued for the mirror are exactly
    the records added to the collection. *)
Lemma queued_is_inserted req e w :
  skipn (length (immediates w))
    (immediates (snd (register_endpoint toLowerCase req e w)))
  = inserted w (snd (register_endpoint toLowerCase req e w)).
Proof.
  destruct (validateRegistration toLowerCase req) as [r|] eqn:Hv.
  { destruct (register_invalid req e w r Hv) as [Hr _]. rewrite Hr.
    unfold inserted. cbn [snd]. by rewrite !skipn_all. }
  destruct (register_cases toLowerCase req e w Hv)
    as (em & f & _ & _ & _ & Hcases).
  cbv zeta in Hcases.
  destruct Hcases as [(err & ls & _ & Hr)
                     | [(existing & ls & _ & _ & Hr)
                       | (_ & _ & [(inner & ls & _ & Hr)
                                  | (up & Hup & [(err & ls & Hr)
                                                | (_ & _ & ls & Hr)])])]];
    rewrite Hr; cbn [snd];
    rewrite ?inserted_after, ?inserted_app; cbn [after immediates];
    rewrite ?skipn_all; try reflexivity.
  by rewrite skipn_app, skipn_all, Nat.sub_diag.
Qed.

(** C8: after a successful registration the stored record is queued for
    the sheet mirror and the 201 reply is sent without the mirror having
    run; a record is queued only once it is stored.  The reply is the same
    whatever the state of the sink.  When the queued callback runs it never
    raises: an unconfigured sink makes it print its skip notice and do
    nothing else, and an error raised while the row is built or appended is
    printed with [console.error] and goes no further; the collection is
    never touched. *)
Theorem sheet_mirror_is_detached (req : request) (e : env) (w : world)
  (reply : response) (w' : world) :
  register_endpoint toLowerCase req e w = (Ok reply, w') ->
  status reply = 201%Z ->
  (exists stored,
      inserted w w' = [stored]
      /\ immediates w' = immediates w ++ [stored])
  /\ (forall req0 e0 w0,
        skipn (length (immediates w0))
          (immediates (snd (register_endpoint toLowerCase req0 e0 w0)))
        = inserted w0 (snd (register_endpoint toLowerCase req0 e0 w0)))
  /\ (forall sheet_id sheet_range row,
        ~ In (CallSheetsAppend sheet_id sheet_range row) (issued w w'))
  /\ (forall client sheet_id sheet_range fault,
        register_endpoint toLowerCase req
          (with_sheets e client sheet_id sheet_range fault) w
        = (Ok reply, w'))
  /\ (forall d e0 w0,
        exists cs ls,
          sheetsCallback toISOString d e0 w0 = (Ok tt, after w0 cs ls 0)
          /\ (sheets_configured e0 = false ->
              cs = [] /\ ls = [ConsoleLog MsgSheetsSkip])
          /\ (forall err,
                sheets_configured e0 = true ->
                fst (sheetRow toISOString d e0 w0) = Throw err
                \/ (sheets_fault e0 = Some err
                    /\ exists row,
                        fst (sheetRow toISOString d e0 w0) = Ok row) ->
                ls = [ConsoleError (MsgSheetsError (prop d "shortTicketId")
                                      (err_message err))]))
  /\ tickets (run_immediates toISOString e w') = tickets w'
  /\ immediates (run_immediates toISOString e w') = [].
Proof.
  intros Hrun Hst.
  destruct (register_created req e w reply w' Hrun Hst)
    as (em & f & up & ls & _ & _ & _ & _ & Hreply & Hw').
  cbv zeta in Hw'. split; [|split; [|split; [|split; [|split; [|split]]]]].
  - eexists. rewrite Hw'. rewrite inserted_app. split; reflexivity.
  - apply queued_is_inserted.
  - intros sheet_id sheet_range row Hin. rewrite Hw', issued_app in Hin.
    cbn [In] in Hin.
    destruct Hin as [H | [H | [H | [H | []]]]]; discriminate H.
  - intros. by rewrite register_ignores_sheets.
  - intros d e0 w0.
    destruct (sheetsCallback_run d e0 w0) as (cs & ls' & Hcb & Hoff & Hon).
    exists cs, ls'. split; [done|]. split; [done|].
    intros err Hconf Herr. specialize (Hon Hconf).
    destruct (sheetRow toISOString d e0 w0) as [[row | err'] w1];
      cbn [fst] in Herr.
    + destruct Herr as [Herr | [Hfault _]]; [discriminate|].
      rewrite Hfault in Hon. by destruct Hon as [_ ->].
    + destruct Herr as [Herr | [_ [row Hrow]]]; [|discriminate].
      injection Herr as ->. by destruct Hon as [_ ->].
  - unfold run_immediates.
    by destruct (run_queue_keeps_store e (immediates w')
                   (World (tickets w') (calls w') (console w') (ticks w') []))
      as (-> & _).
  - unfold run_immediates.
    by destruct (run_queue_keeps_store e (immediates w')
                   (World (tickets w') (calls w') (console w') (ticks w') []))
      as (_ & -> & _).
Qed.

(** C9: the row the mirror appends for a record has seventeen cells, in
    the order ticketId, shortTicketId, fullName, email, phone, college,
    branch, year, gender, accommodation, foodPreference, ieeeStatus,
    ieeeMembershipId or the empty string, ticketType,
    transactionScreenshotUrl, status, and [createdAt] in the form
    [toISOString] gives it; with the sink configured this is the one row
    handed to the append call. *)
Theorem sheet_row_has_seventeen_cells (d : document) (t : Z) (e : env)
  (w : world) :
  d !! "createdAt"%string = Some (VDate t) ->
  let membership := js_or (prop d "ieeeMembershipId") (VStr []) in
  let row :=
    [ prop d "ticketId"; prop d "shortTicketId"; prop d "fullName";
      prop d "email"; prop d "phone"; prop d "college"; prop d "branch";
      prop d "year"; prop d "gender"; prop d "accommodation";
      prop d "foodPreference"; prop d "ieeeStatus"; membership;
      prop d "ticketType"; prop d "transactionScreenshotUrl";
      prop d "status"; VStr (toISOString t) ] in
  sheetRow toISOString d e w = (Ok row, w)
  /\ length row = 17%nat
  /\ (prop d "ieeeMembershipId" = VNull -> membership = VStr [])
  /\ (forall s, s <> [] -> prop d "ieeeMembershipId" = VStr s ->
                membership = VStr s)
  /\ (sheets_configured e = true ->
      issued w (snd (sheetsCallback toISOString d e w))
      = [CallSheetsAppend (of_field (GOOGLE_SHEET_ID e))
           (js_or (of_field (GOOGLE_SHEET_RANGE e)) (VStr (lit "Sheet1!A:Q")))
           row]).
Proof.
  intros Hc membership row.
  pose proof (sheetRow_run d t e w Hc) as Hrow.
  split; [exact Hrow|]. split; [done|]. split; [|split].
  - intros Hm. subst membership. by rewrite Hm.
  - intros s Hs Hm. subst membership. rewrite Hm. unfold js_or. cbn.
    by rewrite bool_decide_eq_false_2.
  - intros Hconf.
    destruct (sheetsCallback_run d e w) as (cs & ls & Hcb & _ & Hon).
    specialize (Hon Hconf). rewrite Hrow in Hon. destruct Hon as [-> _].
    rewrite Hcb. cbn [snd]. apply issued_after.
Qed.

(** Every record the registration route queues for the mirror has a date
    in [createdAt], so the row above is the one mirrored for it. *)
Lemma queued_record_is_dated req e w d :
  In d (skipn (length (immediates w))
          (immediates (snd (register_endpoint toLowerCase req e w)))) ->
  d !! "createdAt"%string = Some (VDate (clock e (2 + ticks w))).
Proof.
  intros Hin.
  destruct (validateRegistration toLowerCase req) as [r|] eqn:Hv.
  { destruct (register_invalid req e w r Hv) as [Hr _].
    rewrite Hr in Hin. cbn [snd] in Hin. rewrite skipn_all in Hin.
    destruct Hin. }
  destruct (register_cases toLowerCase req e w Hv)
    as (em & f & _ & _ & _ & Hcases).
  cbv zeta in Hcases.
  destruct Hcases as [(err & ls & _ & Hr)
                     | [(existing & ls & _ & _ & Hr)
                       | (_ & _ & [(inner & ls & _ & Hr)
                                  | (up & Hup & [(err & ls & Hr)
                                                | (_ & _ & ls & Hr)])])]];
    rewrite Hr in Hin; cbn [snd after immediates] in Hin;
    rewrite ?skipn_all in Hin; try (by destruct Hin).
  rewrite skipn_app, skipn_all, Nat.sub_diag in Hin. cbn [skipn app In] in Hin.
  destruct Hin as [<- | []]. rewrite lookup_insert_ne by done.
  pose proof (built_document_fields (req_body req) (next_uuid e)
                (generateShortTicketId (next_uuid e)) up
                (clock e (2 + ticks w)) (clock e (3 + ticks w))) as Hd.
  cbv zeta in Hd. by destruct Hd as (_ & _ & _ & _ & _ & _ & _ & -> & _).
Qed.

End Guarantees.

(** ** The guarantees at work on concrete submissions *)

Lemma asciiLower_no_space s :
  forallb (fun c => negb (isWhiteSpace c)) s = true ->
  forallb (fun c => negb (isWhiteSpace c)) (asciiLower s) = true.
Proof.
  unfold asciiLower. induction s as [|c s IH]; cbn [map forallb]; [done|].
  intros H. apply andb_true_iff in H as [Hc Hs]. rewrite (IH Hs), andb_true_r.
  destruct ((65 <=? c) && (c <=? 90)) eqn:Hup; [|done].
  apply andb_true_iff in Hup as [Hlo Hhi].
  apply N.leb_le in Hlo, Hhi. apply negb_true_iff.
  unfold isWhiteSpace.
  repeat (apply orb_false_iff; split);
    try (apply N.eqb_neq; lia);
    apply andb_false_iff; left; apply N.leb_gt; lia.
Qed.

Lemma find_existsb {A} (p : A -> bool) (l : list A) :
  existsb p l = true -> exists x, List.find p l = Some x.
Proof.
  induction l as [|a l IH]; cbn [existsb List.find]; [discriminate|].
  destruct (p a); [by eexists | exact IH].
Qed.


(** Jane's upload fails because ImgBB cannot be reached. *)
Lemma upload_failure_persists_nothing_witness :
  fst (register_endpoint asciiLower jane_request imgbb_down_env empty_world)
  = Ok (failure_reply
          (lit "Failed to upload image to ImgBB: connect ECONNREFUSED"))
  /\ tickets
       (snd (register_endpoint asciiLower jane_request imgbb_down_env
               empty_world))
     = [].
Proof.
  pose proof (upload_failure_persists_nothing asciiLower jane_request
                imgbb_down_env empty_world (buffer screenshot)
                (lit "transaction_THM-3f2b8c1a_1700000000001")
                (Error
                   (lit "Failed to upload image to ImgBB: connect ECONNREFUSED")))
    as H.
  assert (Hin : In (CallImgBB (buffer screenshot)
                      (lit "transaction_THM-3f2b8c1a_1700000000001"))
                  (issued empty_world
                     (snd (register_endpoint asciiLower jane_request
                             imgbb_down_env empty_world)))).
  { vm_compute. right. right. left. reflexivity. }
  assert (Hup : fst (uploadToImgBB (buffer screenshot)
                       (lit "transaction_THM-3f2b8c1a_1700000000001")
                       imgbb_down_env empty_world)
                = Throw (Error
                           (lit "Failed to upload image to ImgBB: connect ECONNREFUSED")))
    by (vm_compute; reflexivity).
  specialize (H Hin Hup).
  destruct (register_endpoint asciiLower jane_request imgbb_down_env
              empty_world) as [reply w'].
  cbn [fst snd]. destruct H as (-> & _ & _ & -> & _). split; reflexivity.
Defined.

Lemma short_ticket_id_is_derived_from_uuid_witness :
  isUuidV4 (lit "3f2b8c1a-9d4e-4f6a-8b7c-0123456789ab") = true
  /\ generateShortTicketId (lit "3f2b8c1a-9d4e-4f6a-8b7c-0123456789ab")
     = lit "THM-3f2b8c1a".
Proof.
  assert (Hu : isUuidV4 (lit "3f2b8c1a-9d4e-4f6a-8b7c-0123456789ab") = true)
    by (vm_compute; reflexivity).
  split; [exact Hu|].
  destruct (short_ticket_id_is_derived_from_uuid asciiLower _ Hu)
    as (_ & -> & _).
  vm_compute. reflexivity.
Defined.

(** An IEEE member registers: the stored membership id is the trimmed
    one. *)
Lemma membership_id_follows_status_witness :
  exists stored,
    In stored
      (inserted empty_world
         (snd (register_endpoint asciiLower member_request fair_env
                 empty_world)))
    /\ stored !! "ieeeStatus"%string = Some (VStr (lit "member"))
    /\ stored !! "ieeeMembershipId"%string = Some (VStr (lit "98765432")).
Proof.
  assert (Hlen : length (inserted empty_world
                           (snd (register_endpoint asciiLower member_request
                                   fair_env empty_world))) = 1%nat)
    by (vm_compute; reflexivity).
  destruct (inserted empty_world
              (snd (register_endpoint asciiLower member_request fair_env
                      empty_world))) as [|stored rest] eqn:Hl;
    [discriminate Hlen|].
  exists stored. split; [by left|].
  assert (Hin : In stored
                  (inserted empty_world
                     (snd (register_endpoint asciiLower member_request
                             fair_env empty_world))))
    by (rewrite Hl; by left).
  destruct (membership_id_follows_status asciiLower member_request fair_env
              empty_world stored Hin)
    as (st & v & Hst & _ & Hs & Hm & _ & _ & Hmember).
  change (Some (lit "member") = Some st) in Hst. injection Hst as <-.
  destruct (Hmember eq_refl) as (id & Hid & -> & _).
  change (Some (lit " 98765432 ") = Some id) in Hid. injection Hid as <-.
  split; [exact Hs|]. rewrite Hm. vm_compute. reflexivity.
Defined.

(** Jane's first submission succeeds: one lookup, one UUID, one upload,
    one insert, in that order, and the 201 reply echoes the lower-cased
    address. *)
Example jane_registers :
  fst (register_endpoint asciiLower jane_request fair_env empty_world)
  = Ok (success_reply (lit "3f2b8c1a-9d4e-4f6a-8b7c-0123456789ab")
          (lit "THM-3f2b8c1a") (lit "jane@x.com"))
  /\ map (fun c => match c with
                   | CallFindOne _ => "findOne"
                   | CallUuidv4 => "uuidv4"
                   | CallImgBB _ _ => "imgbb"
                   | CallInsertOne _ => "insertOne"
                   | CallSheetsAppend _ _ _ => "append"
                   end%string)
       (calls jane_world)
     = ["findOne"; "uuidv4"; "imgbb"; "insertOne"]%string
  /\ length (tickets jane_world) = 1%nat
  /\ length (immediates jane_world) = 1%nat.
Proof. vm_compute. repeat split. Qed.


(** Jane is found under both of her identifiers, and an identifier nobody
    has is reported as not found. *)
Lemma lookup_by_either_identifier_witness :
  store_ok (tickets jane_world)
  /\ fst (lookup_endpoint (lit "3f2b8c1a-9d4e-4f6a-8b7c-0123456789ab")
            fair_env jane_world)
     = fst (lookup_endpoint (lit "THM-3f2b8c1a") fair_env jane_world)
  /\ fst (lookup_endpoint (lit "THM-00000000") fair_env jane_world)
     = Ok not_found_reply.
Proof.
  assert (Hok : store_ok (tickets jane_world)).
  { apply (register_keeps_store_ok asciiLower jane_request fair_env
             empty_world); [vm_compute; reflexivity | apply store_ok_nil]. }
  split; [exact Hok|].
  destruct (lookup_by_either_identifier fair_env jane_world eq_refl Hok)
    as (Hfound & _ & Hmissing & _).
  assert (Hids : map (fun d => (d !! "ticketId"%string,
                                d !! "shortTicketId"%string))
                   (tickets jane_world)
                 = [(Some (VStr (lit "3f2b8c1a-9d4e-4f6a-8b7c-0123456789ab")),
                     Some (VStr (lit "THM-3f2b8c1a")))])
    by (vm_compute; reflexivity).
  destruct (tickets jane_world) as [|d [|d' rest]]; try discriminate Hids.
  cbn [map] in Hids. injection Hids as Ht Hs.
  split.
  - destruct (Hfound d _ _ (or_introl eq_refl) Ht Hs) as [-> ->]. reflexivity.
  - apply Hmissing. intros d0 [<- | []].
    rewrite (prop_lookup _ _ _ Ht), (prop_lookup _ _ _ Hs).
    split; intros H; vm_compute in H; discriminate H.
Defined.

(** Jane's registration succeeds; the mirror is queued and the reply does
    not depend on the sink. *)
Lemma sheet_mirror_is_detached_witness :
  fst (register_endpoint asciiLower jane_request
         (with_sheets fair_env false None None None) empty_world)
  = fst (register_endpoint asciiLower jane_request fair_env empty_world)
  /\ tickets (run_immediates isoString fair_env jane_world)
     = tickets jane_world
  /\ immediates (run_immediates isoString fair_env jane_world) = [].
Proof.
  pose proof (register_success asciiLower jane_request fair_env empty_world
                (lit "Jane@X.com") screenshot) as Hrun.
  assert (Hv : validateRegistration asciiLower jane_request = Next)
    by (vm_compute; reflexivity).
  specialize (Hrun Hv eq_refl eq_refl
                (UploadResult true (lit "https://i.ibb.co/abc/proof.jpg")
                   (lit "https://ibb.co/abc/delete"))
                eq_refl eq_refl eq_refl eq_refl eq_refl).
  cbv zeta in Hrun.
  destruct (sheet_mirror_is_detached asciiLower isoString jane_request fair_env
              empty_world _ _ Hrun eq_refl)
    as (_ & _ & _ & Hsame & _ & Hstore & Hqueue).
  unfold jane_world. rewrite (Hsame false None None None), Hrun.
  cbn [fst snd]. split; [reflexivity|]. split; [exact Hstore | exact Hqueue].
Defined.

(** The row mirrored for Jane. *)
Lemma sheet_row_has_seventeen_cells_witness :
  jane_record !! "createdAt"%string = Some (VDate 1700000000002)
  /\ fst (sheetRow isoString jane_record fair_env empty_world)
     = Ok [ VStr (lit "3f2b8c1a-9d4e-4f6a-8b7c-0123456789ab");
            VStr (lit "THM-3f2b8c1a"); VStr (lit "Jane Doe");
            VStr (lit "jane@x.com"); VStr (lit "+919876543210");
            VStr (lit "ABC"); VStr (lit "CS"); VStr (lit "2");
            VStr (lit "female"); VStr (lit "no"); VStr (lit "veg");
            VStr (lit "non-member"); VStr []; VStr (lit "non-ieee");
            VStr (lit "https://i.ibb.co/abc/proof.jpg");
            VStr (lit "pending"); VStr (lit "2023-11-14T22:13:20.002Z") ].
Proof.
  assert (Hc : jane_record !! "createdAt"%string = Some (VDate 1700000000002))
    by (vm_compute; reflexivity).
  split; [exact Hc|].
  destruct (sheet_row_has_seventeen_cells isoString jane_record _ fair_env
              empty_world Hc) as (-> & _).
  vm_compute. reflexivity.
Defined.



(** * Further properties of the service *)

Section Further.

Variable toLowerCase : jsstring -> jsstring.
Variable toISOString : Z -> jsstring.

(** ** Short ticket ids of arbitrary strings *)

Lemma split_first sep s :
  exists piece rest,
    split sep s = piece :: rest
    /\ forallb (fun c => negb (c =? sep)) piece = true
    /\ (s = piece \/ exists tail, s = piece ++ sep :: tail).
Proof.
  induction s as [|c s IH]; cbn [split].
  - exists [], []. repeat split. by left.
  - destruct (c =? sep) eqn:Hc.
    + apply N.eqb_eq in Hc. subst c. exists [], (split sep s).
      repeat split. right. by exists s.
    + destruct IH as (piece & rest & -> & Hp & Hs).
      exists (c :: piece), rest. repeat split.
      * cbn [forallb]. by rewrite Hc, Hp.
      * destruct Hs as [-> | (tail & ->)]; [by left|]. right. by exists tail.
Qed.

(** X1: whatever string it is given, [generateShortTicketId] returns
    ["THM-"] followed by the part of the string before its first hyphen
    (the whole string when it has none, nothing when it is empty or starts
    with a hyphen); the element [split] returns is never missing.  Two
    strings that agree up to their first hyphen get the same short id. *)
Theorem short_id_keeps_first_segment (uuid : jsstring) :
  exists piece,
    split (N_of_ascii "-") uuid !! 0%nat = Some piece
    /\ generateShortTicketId uuid = lit "THM-" ++ piece
    /\ forallb (fun c => negb (isHyphen c)) piece = true
    /\ (uuid = piece \/ exists tail, uuid = piece ++ N_of_ascii "-" :: tail)
    /\ (forall tail other,
          uuid = piece ++ N_of_ascii "-" :: tail ->
          generateShortTicketId (piece ++ N_of_ascii "-" :: other)
          = generateShortTicketId uuid).
Proof.
  destruct (split_first (N_of_ascii "-") uuid) as (piece & rest & Hs & Hp & Hu).
  exists piece. unfold generateShortTicketId. rewrite Hs. cbn [lookup].
  repeat split; try done.
  intros tail other _. by rewrite split_head.
Qed.

(** ** What the email pattern turns down *)

Lemma plain_count_at s :
  forallb plain s = true -> count_occ N.eq_dec s (N_of_ascii "@") = 0%nat.
Proof.
  induction s as [|c s IH]; cbn [forallb count_occ]; [done|].
  intros H. apply andb_true_iff in H as [Hc Hs]. unfold plain in Hc.
  apply negb_true_iff, orb_false_iff in Hc as [_ Hc]. apply N.eqb_neq in Hc.
  destruct (N.eq_dec c (N_of_ascii "@")); [done|]. by apply IH.
Qed.

Lemma email_shape_one_at s :
  email_shape s -> count_occ N.eq_dec s (N_of_ascii "@") = 1%nat.
Proof.
  intros (loc & domain & tld & -> & _ & _ & _ & Hl & Hd & Ht).
  rewrite !count_occ_app, (plain_count_at _ Hl), (plain_count_at _ Hd),
    (plain_count_at _ Ht).
  reflexivity.
Qed.

(** X2: the validator does not trim or otherwise repair the email before
    it checks it: an address that holds a white-space code unit anywhere
    (leading and trailing blanks included), or that does not hold exactly
    one at sign, is always reported with the email message and the
    submission is turned down. *)
Theorem email_is_checked_as_submitted (req : request) (s : jsstring) :
  email (req_body req) = Some s ->
  existsb isWhiteSpace s = true
  \/ count_occ N.eq_dec s (N_of_ascii "@") <> 1%nat ->
  In (rule_message REmail) (validation_errors toLowerCase req)
  /\ validateRegistration toLowerCase req <> Next.
Proof.
  intros Hs Hbad.
  assert (Hno : ~ satisfies toLowerCase req REmail).
  { intros (s' & Hs' & Hshape). rewrite Hs in Hs'. injection Hs' as <-.
    destruct Hbad as [Hws | Hat].
    - apply existsb_exists in Hws as (c & Hin & Hc).
      pose proof (email_shape_no_space s Hshape) as Hclean.
      rewrite forallb_forall in Hclean. specialize (Hclean c Hin).
      by rewrite Hc in Hclean.
    - by apply Hat, email_shape_one_at. }
  split.
  - by apply validation_errors_In, violated_true.
  - intros Hnext. apply Hno. by apply validateRegistration_Next.
Qed.

(** ** The replies of the registration route *)




(** ** What the registration route does to the collection *)

Lemma run_eq_reply {A} (a a' : A) : @Ok A a = Ok a' -> a = a'.
Proof. by intros [= ->]. Qed.

Lemma stored_lookup (d : document) (v : value) (k : string) :
  k <> "_id"%string -> (<["_id"%string := v]> d) !! k = d !! k.
Proof. intros Hk. by rewrite lookup_insert_ne. Qed.

Lemma success_reply_ids full short email' :
  exists ids,
    data (success_reply full short email') = Some ids
    /\ ids !! "ticketId"%string = Some (VStr full)
    /\ ids !! "shortTicketId"%string = Some (VStr short)
    /\ ids !! "email"%string = Some (VStr email').
Proof.
  eexists. split; [reflexivity|]. repeat split; vm_compute; reflexivity.
Qed.

(** X4: the route only ever appends to the collection: the records that
    were there stay, in place and unchanged, and at most one is added.  A
    record is added exactly when the reply is 201, the same record is then
    queued for the mirror, and the [ticketId], [shortTicketId] and [email]
    the reply gives the caller are those of the stored record. *)
Theorem registration_only_appends (req : request) (e : env) (w : world) :
  let (res, w') := register_endpoint toLowerCase req e w in
  tickets w' = tickets w ++ inserted w w'
  /\ immediates w' = immediates w ++ inserted w w'
  /\ (length (inserted w w') <= 1)%nat
  /\ (inserted w w' <> []
      <-> exists reply, res = Ok reply /\ status reply = 201%Z)
  /\ (forall stored reply,
        In stored (inserted w w') -> res = Ok reply ->
        exists ids,
          data reply = Some ids
          /\ ids !! "ticketId"%string = stored !! "ticketId"%string
          /\ ids !! "shortTicketId"%string = stored !! "shortTicketId"%string
          /\ ids !! "email"%string = stored !! "email"%string).
Proof.
  assert (Hnone : forall (res : result response) cs ls n,
             (forall reply, res = Ok reply -> status reply <> 201%Z) ->
             let w' := after w cs ls n in
             tickets w' = tickets w ++ inserted w w'
             /\ immediates w' = immediates w ++ inserted w w'
             /\ (length (inserted w w') <= 1)%nat
             /\ (inserted w w' <> []
                 <-> exists reply, res = Ok reply /\ status reply = 201%Z)
             /\ (forall stored reply,
                   In stored (inserted w w') -> res = Ok reply ->
                   exists ids,
                     data reply = Some ids
                     /\ ids !! "ticketId"%string = stored !! "ticketId"%string
                     /\ ids !! "shortTicketId"%string
                        = stored !! "shortTicketId"%string
                     /\ ids !! "email"%string = stored !! "email"%string)).
  { intros res cs ls n Hst w'. subst w'. rewrite inserted_after.
    cbn [after tickets immediates length]. rewrite !app_nil_r.
    repeat split; try done; try lia.
    intros (reply & Hres & H201). by destruct (Hst reply Hres). }
  destruct (validateRegistration toLowerCase req) as [r|] eqn:Hv.
  { destruct (register_invalid toLowerCase req e w r Hv) as [Hr H400].
    rewrite Hr.
    replace w with (after w [] [] 0) at 1 3 5 7 9
      by (destruct w; unfold after; cbn; by rewrite !app_nil_r).
    apply Hnone. intros reply [= <-]. congruence. }
  destruct (register_cases toLowerCase req e w Hv)
    as (em & f & Hem & _ & _ & Hcases).
  cbv zeta in Hcases.
  destruct Hcases as [(err & ls & _ & Hr)
                     | [(existing & ls & _ & _ & Hr)
                       | (_ & _ & [(inner & ls & _ & Hr)
                                  | (up & Hup & [(err & ls & Hr)
                                                | (_ & _ & ls & Hr)])])]];
    rewrite Hr.
  - apply Hnone. intros reply [= <-].
    destruct (error_reply_status err); congruence.
  - apply Hnone. by intros reply [= <-].
  - apply Hnone. by intros reply [= <-].
  - apply Hnone. intros reply [= <-].
    destruct (error_reply_status err); congruence.
  - rewrite inserted_app. cbn [tickets immediates length].
    split; [done|]. split; [done|]. split; [lia|]. split.
    + split; [intros _ | intros _ H; discriminate H].
      eexists. split; reflexivity.
    + intros stored reply [<- | []] Hreply.
      apply run_eq_reply in Hreply. subst reply.
      destruct (success_reply_ids (next_uuid e)
                  (generateShortTicketId (next_uuid e))
                  (trim (toLowerCase em)))
        as (ids & Hd & Ht & Hs & Hm).
      exists ids. split; [done|].
      pose proof (built_document_fields toLowerCase (req_body req)
                    (next_uuid e) (generateShortTicketId (next_uuid e)) up
                    (clock e (2 + ticks w)) (clock e (3 + ticks w))) as Hdoc.
      cbv zeta in Hdoc. destruct Hdoc as (Hdt & Hds & Hdm & _).
      rewrite !stored_lookup by done.
      rewrite Ht, Hs, Hm, Hdt, Hds, Hdm, Hem. done.
Qed.

(** ** Registering twice, and registering then looking up *)

Lemma created_record req e w reply w' :
  register_endpoint toLowerCase req e w = (Ok reply, w') ->
  status reply = 201%Z ->
  exists em up,
    validateRegistration toLowerCase req = Next
    /\ email (req_body req) = Some em
    /\ email_shape em
    /\ let stored :=
         <["_id"%string := VObjectId (next_objectId e)]>
           (built_document toLowerCase (req_body req) (next_uuid e)
              (generateShortTicketId (next_uuid e)) up
              (clock e (2 + ticks w)) (clock e (3 + ticks w))) in
       tickets w' = tickets w ++ [stored]
       /\ inserted w w' = [stored]
       /\ stored !! "email"%string = Some (VStr (trim (toLowerCase em)))
       /\ stored !! "ticketId"%string = Some (VStr (next_uuid e))
       /\ stored !! "shortTicketId"%string
          = Some (VStr (generateShortTicketId (next_uuid e)))
       /\ reply = success_reply (next_uuid e)
                    (generateShortTicketId (next_uuid e))
                    (trim (toLowerCase em)).
Proof.
  intros Hrun Hst.
  destruct (register_created toLowerCase req e w reply w' Hrun Hst)
    as (em & f & up & ls & Hv & Hem & _ & _ & Hreply & Hw').
  cbv zeta in Hw'.
  destruct (validated_fields toLowerCase req Hv)
    as (fn & em0 & ph & co & br & ge & st & f0 & _ & Hem0 & _ & _ & _ & _ & _
        & _ & Hshape & _).
  assert (em0 = em) as -> by congruence.
  exists em, up. split; [done|]. split; [done|]. split; [done|].
  intros stored. subst stored.
  pose proof (built_document_fields toLowerCase (req_body req)
                (next_uuid e) (generateShortTicketId (next_uuid e)) up
                (clock e (2 + ticks w)) (clock e (3 + ticks w))) as Hdoc.
  cbv zeta in Hdoc. destruct Hdoc as (Hdt & Hds & Hdm & _).
  rewrite Hem in Hdm. rewrite !stored_lookup by done.
  rewrite Hw'. rewrite inserted_app. cbn [tickets]. repeat split; done.
Qed.

(** X5: once an address has been registered, a later validated submission
    whose address lower-cases to the same text (the same address in another
    letter case, for instance) is answered with the 400 duplicate-email
    reply after the one lookup, and the collection stays as it was, with
    its single record for that address. *)
Theorem registered_email_is_refused_again (req : request) (e : env)
  (w : world) (reply : response) (w' : world) (req2 : request) (e2 : env)
  (w2 : world) (em em2 : jsstring) :
  (forall s, forallb (fun c => negb (isWhiteSpace c)) s = true ->
             forallb (fun c => negb (isWhiteSpace c)) (toLowerCase s) = true) ->
  register_endpoint toLowerCase req e w = (Ok reply, w') ->
  status reply = 201%Z ->
  email (req_body req) = Some em ->
  tickets w2 = tickets w' ->
  validateRegistration toLowerCase req2 = Next ->
  email (req_body req2) = Some em2 ->
  toLowerCase em2 = toLowerCase em ->
  findOne_fault e2 = None ->
  fst (register_endpoint toLowerCase req2 e2 w2) = Ok duplicate_email_reply
  /\ issued w2 (snd (register_endpoint toLowerCase req2 e2 w2))
     = [CallFindOne (QEq "email" (VStr (toLowerCase em2)))]
  /\ tickets (snd (register_endpoint toLowerCase req2 e2 w2)) = tickets w'
  /\ immediates (snd (register_endpoint toLowerCase req2 e2 w2))
     = immediates w2.
Proof.
  intros Hlower Hrun Hst Hem Hw2 Hv2 Hem2 Hsame Hfault.
  destruct (created_record req e w reply w' Hrun Hst)
    as (em0 & up & _ & Hem0 & Hshape & Hrec).
  assert (em0 = em) as -> by congruence.
  cbv zeta in Hrec. destruct Hrec as (Ht & _ & Hmail & _).
  assert (Hkey : trim (toLowerCase em) = toLowerCase em)
    by (apply trim_no_space, Hlower, email_shape_no_space, Hshape).
  rewrite Hkey, <- Hsame in Hmail.
  assert (Hsome : existsb
                    (matches_query (QEq "email" (VStr (toLowerCase em2))))
                    (tickets w2) = true).
  { rewrite Hw2, Ht, existsb_app. apply orb_true_iff. right.
    cbn [existsb matches_query]. rewrite orb_false_r. unfold strict_eq.
    apply bool_decide_eq_true. by apply prop_lookup. }
  destruct (find_existsb _ _ Hsome) as [existing Hfind].
  destruct (validated_fields toLowerCase req2 Hv2)
    as (fn & em2' & ph & co & br & ge & st & f2 & _ & Hem2' & _ & _ & _ & _
        & _ & Hf2 & _).
  rewrite (register_duplicate toLowerCase req2 e2 w2 em2 f2 Hv2 Hem2 Hf2
             existing Hfault Hfind).
  cbn [fst snd]. rewrite issued_after. cbn [after tickets immediates].
  repeat split; done.
Qed.

Lemma built_document_upload_fields b full short up created updated :
  let d := built_document toLowerCase b full short up created updated in
  d !! "transactionScreenshotUrl"%string = Some (VStr (up_url up))
  /\ d !! "transactionScreenshotDeleteUrl"%string
     = Some (VStr (up_deleteUrl up)).
Proof. split; vm_compute; reflexivity. Qed.

(** X6: a registration that was answered 201 can be read back: with the
    store answering, looking up the [ticketId] of the reply and looking up
    its [shortTicketId] both return the record just stored, with the
    normalised email, status "pending" and the hosted screenshot URL, and
    without the delete URL that was stored with it. *)
Theorem registration_can_be_looked_up (req : request) (e : env) (w : world)
  (reply : response) (w' : world) (e2 : env) :
  register_endpoint toLowerCase req e w = (Ok reply, w') ->
  status reply = 201%Z ->
  store_ok (tickets w) ->
  isUuidV4 (next_uuid e) = true ->
  findOne_fault e2 = None ->
  exists ids stored safeData up em,
    data reply = Some ids
    /\ ids !! "ticketId"%string = Some (VStr (next_uuid e))
    /\ ids !! "shortTicketId"%string
       = Some (VStr (generateShortTicketId (next_uuid e)))
    /\ inserted w w' = [stored]
    /\ fst (lookup_endpoint (next_uuid e) e2 w') = Ok (found_reply stored)
    /\ fst (lookup_endpoint (generateShortTicketId (next_uuid e)) e2 w')
       = Ok (found_reply stored)
    /\ data (found_reply stored) = Some safeData
    /\ imgbb_outcome (imgbb e) = Ok up
    /\ email (req_body req) = Some em
    /\ safeData !! "ticketId"%string = Some (VStr (next_uuid e))
    /\ safeData !! "email"%string = Some (VStr (trim (toLowerCase em)))
    /\ safeData !! "status"%string = Some (VStr (lit "pending"))
    /\ safeData !! "transactionScreenshotUrl"%string
       = Some (VStr (up_url up))
    /\ stored !! "transactionScreenshotDeleteUrl"%string
       = Some (VStr (up_deleteUrl up))
    /\ safeData !! "transactionScreenshotDeleteUrl"%string = None.
Proof.
  intros Hrun Hst Hok Hu Hfault.
  destruct (register_created toLowerCase req e w reply w' Hrun Hst)
    as (em & f & up & ls & Hv & Hem & _ & Hup & Hreply & Hw').
  cbv zeta in Hw'.
  set (doc := built_document toLowerCase (req_body req) (next_uuid e)
                (generateShortTicketId (next_uuid e)) up
                (clock e (2 + ticks w)) (clock e (3 + ticks w))) in *.
  set (stored := <["_id"%string := VObjectId (next_objectId e)]> doc) in *.
  destruct (success_reply_ids (next_uuid e)
              (generateShortTicketId (next_uuid e)) (trim (toLowerCase em)))
    as (ids & Hd & Hit & His & _).
  pose proof (built_document_fields toLowerCase (req_body req)
                (next_uuid e) (generateShortTicketId (next_uuid e)) up
                (clock e (2 + ticks w)) (clock e (3 + ticks w))) as Hdoc.
  cbv zeta in Hdoc. fold doc in Hdoc.
  destruct Hdoc as (Hdt & Hds & Hdm & _ & _ & _ & Hdst & _).
  rewrite Hem in Hdm.
  pose proof (built_document_upload_fields (req_body req)
                (next_uuid e) (generateShortTicketId (next_uuid e)) up
                (clock e (2 + ticks w)) (clock e (3 + ticks w))) as Hurl.
  cbv zeta in Hurl. fold doc in Hurl. destruct Hurl as [Hurl Hdel].
  assert (Hok' : store_ok (tickets w')).
  { pose proof (register_keeps_store_ok toLowerCase req e w Hu Hok) as H.
    by rewrite Hrun in H. }
  assert (Hin : In stored (tickets w')).
  { rewrite Hw'. cbn [tickets]. apply in_or_app. right. by left. }
  assert (Hst1 : stored !! "ticketId"%string = Some (VStr (next_uuid e)))
    by (unfold stored; by rewrite stored_lookup).
  assert (Hst2 : stored !! "shortTicketId"%string
                 = Some (VStr (generateShortTicketId (next_uuid e))))
    by (unfold stored; by rewrite stored_lookup).
  exists ids, stored,
    (delete "transactionScreenshotDeleteUrl"%string stored), up, em.
  rewrite Hreply.
  split; [done|]. split; [done|]. split; [done|].
  split; [rewrite Hw'; apply inserted_app|].
  split.
  { rewrite lookup_endpoint_run by done. cbn [fst].
    by rewrite (find_by_either_id _ stored (next_uuid e) (next_uuid e) Hok')
      by auto. }
  split.
  { rewrite lookup_endpoint_run by done. cbn [fst].
    by rewrite (find_by_either_id _ stored (next_uuid e)
                  (generateShortTicketId (next_uuid e)) Hok') by auto. }
  split; [reflexivity|]. split; [done|]. split; [done|].
  unfold stored.
  rewrite !lookup_delete_ne by done. rewrite lookup_delete_eq.
  rewrite !stored_lookup by done.
  repeat split; done.
Qed.

(** ** When the insert is refused *)

Lemma error_reply_duplicate_key : error_reply duplicate_key_error = duplicate_key_reply.
Proof. reflexivity. Qed.

(** X7: the short id is only the first segment of the UUID, and the
    collection has a unique index on it: when the generated UUID starts
    with the same eight characters as the ticket id of a stored record, the
    insert is refused and the route replies 400 "Registration already
    exists".  The screenshot has been uploaded by then and stays at ImgBB;
    nothing is stored or queued, and no new id is tried. *)
Theorem short_id_collision_is_refused (req : request) (e : env) (w : world)
  (em : jsstring) (up : upload_result) (d : document) (other : jsstring) :
  validateRegistration toLowerCase req = Next ->
  email (req_body req) = Some em ->
  findOne_fault e = None ->
  List.find (matches_query (QEq "email" (VStr (toLowerCase em)))) (tickets w)
  = None ->
  imgbb_outcome (imgbb e) = Ok up ->
  insertOne_fault e = None ->
  In d (tickets w) ->
  d !! "shortTicketId"%string = Some (VStr (generateShortTicketId other)) ->
  isUuidV4 other = true ->
  isUuidV4 (next_uuid e) = true ->
  firstn 8 (next_uuid e) = firstn 8 other ->
  let (res, w') := register_endpoint toLowerCase req e w in
  res = Ok duplicate_key_reply
  /\ status duplicate_key_reply = 400%Z
  /\ tickets w' = tickets w
  /\ immediates w' = immediates w
  /\ exists image name doc,
      issued w w'
      = [CallFindOne (QEq "email" (VStr (toLowerCase em))); CallUuidv4;
         CallImgBB image name; CallInsertOne doc]
      /\ doc !! "ticketId"%string = Some (VStr (next_uuid e)).
Proof.
  intros Hv Hem Hfault Hfind Hup Hins Hin Hshort Hu1 Hu2 Hsame.
  destruct (validated_fields toLowerCase req Hv)
    as (fn & em' & ph & co & br & ge & st & f & _ & _ & _ & _ & _ & _ & _
        & Hf & _).
  set (doc := built_document toLowerCase (req_body req) (next_uuid e)
                (generateShortTicketId (next_uuid e)) up
                (clock e (2 + ticks w)) (clock e (3 + ticks w))).
  pose proof (built_document_fields toLowerCase (req_body req)
                (next_uuid e) (generateShortTicketId (next_uuid e)) up
                (clock e (2 + ticks w)) (clock e (3 + ticks w))) as Hdoc.
  cbv zeta in Hdoc. fold doc in Hdoc. destruct Hdoc as (Hdt & Hds & _).
  assert (Hgen : generateShortTicketId (next_uuid e)
                 = generateShortTicketId other).
  { destruct (generateShortTicketId_uuid _ Hu1) as [_ ->].
    destruct (generateShortTicketId_uuid _ Hu2) as [_ ->].
    by rewrite Hsame. }
  assert (Hclash : existsb (clashes doc) (tickets w) = true).
  { apply existsb_exists. exists d. split; [done|].
    unfold clashes. apply existsb_exists. exists "shortTicketId"%string.
    split; [cbn; auto|]. unfold strict_eq. apply bool_decide_eq_true.
    rewrite (prop_lookup _ _ _ Hds), (prop_lookup _ _ _ Hshort).
    by rewrite Hgen. }
  rewrite (register_insert_failure toLowerCase req e w em f Hv Hem Hf up
             duplicate_key_error Hfault Hfind Hup).
  2:{ cbv zeta. fold doc. rewrite Hins. by split. }
  fold doc. rewrite error_reply_duplicate_key, issued_after.
  cbn [after tickets immediates].
  split; [done|]. split; [done|]. split; [done|]. split; [done|].
  by eexists _, _, doc.
Qed.

(** X8: a failure of the store is reported, not hidden: when [findOne]
    or, after a successful upload, [insertOne] rejects, the reply is 400
    "Registration already exists" if the error carries code 11000 and
    otherwise 500 "Registration failed" with the error's own message.
    Either way nothing is stored or queued; in the second case the upload
    has already been made and is not undone. *)
Theorem store_failure_is_reported (req : request) (e : env) (w : world)
  (em : jsstring) (err : js_error) :
  validateRegistration toLowerCase req = Next ->
  email (req_body req) = Some em ->
  findOne_fault e = Some err
  \/ (findOne_fault e = None
      /\ List.find (matches_query (QEq "email" (VStr (toLowerCase em))))
           (tickets w) = None
      /\ (exists up, imgbb_outcome (imgbb e) = Ok up)
      /\ insertOne_fault e = Some err) ->
  let (res, w') := register_endpoint toLowerCase req e w in
  res = Ok (error_reply err)
  /\ (err_code err = Some 11000%Z -> error_reply err = duplicate_key_reply)
  /\ (err_code err <> Some 11000%Z ->
      error_reply err = failure_reply (err_message err))
  /\ tickets w' = tickets w
  /\ immediates w' = immediates w
  /\ (findOne_fault e = Some err ->
      issued w w' = [CallFindOne (QEq "email" (VStr (toLowerCase em)))])
  /\ (findOne_fault e = None ->
      exists image name doc,
        issued w w'
        = [CallFindOne (QEq "email" (VStr (toLowerCase em))); CallUuidv4;
           CallImgBB image name; CallInsertOne doc]).
Proof.
  intros Hv Hem Hcase.
  destruct (validated_fields toLowerCase req Hv)
    as (fn & em' & ph & co & br & ge & st & f & _ & _ & _ & _ & _ & _ & _
        & Hf & _).
  assert (Hcode : (err_code err = Some 11000%Z ->
                   error_reply err = duplicate_key_reply)
                  /\ (err_code err <> Some 11000%Z ->
                      error_reply err = failure_reply (err_message err))).
  { unfold error_reply. split; intros H.
    - by rewrite bool_decide_eq_true_2.
    - by rewrite bool_decide_eq_false_2. }
  destruct Hcode as [H11000 Hother].
  destruct Hcase as [Hfault | (Hfault & Hfind & [up Hup] & Hins)].
  - rewrite (register_find_fault toLowerCase req e w em f Hv Hem Hf err Hfault).
    rewrite issued_after. cbn [after tickets immediates].
    repeat split; try done. intros Hnone. congruence.
  - rewrite (register_insert_failure toLowerCase req e w em f Hv Hem Hf up
               err Hfault Hfind Hup).
    2:{ cbv zeta. by rewrite Hins. }
    rewrite issued_after. cbn [after tickets immediates].
    split; [done|]. split; [done|]. split; [done|]. split; [done|].
    split; [done|]. split; [intros Hsome; congruence|].
    intros _. by eexists _, _, _.
Qed.

(** ** The keys of the collection *)

Lemma lookup_keeps_tickets id e w :
  tickets (snd (lookup_endpoint id e w)) = tickets w
  /\ immediates (snd (lookup_endpoint id e w)) = immediates w.
Proof.
  destruct w. run. destruct (findOne_fault e); [done|].
  by destruct (List.find _ _).
Qed.

(** X9: the route keeps the collection well keyed.  If no two records
    share an [email], a [ticketId] or a [shortTicketId], every [ticketId]
    is a version-4 UUID and every [shortTicketId] is derived from it, then
    the same holds after any submission for which [uuidv4] returns a
    version-4 UUID, whatever its outcome, and after any lookup. *)
Theorem routes_keep_keys_unique (req : request) (e : env) (w : world) :
  isUuidV4 (next_uuid e) = true ->
  store_ok (tickets w) ->
  NoDup (map (fun d => prop d "email") (tickets w)) ->
  let w' := snd (register_endpoint toLowerCase req e w) in
  store_ok (tickets w')
  /\ NoDup (map (fun d => prop d "email") (tickets w'))
  /\ (forall id e2,
        store_ok (tickets (snd (lookup_endpoint id e2 w')))
        /\ NoDup (map (fun d => prop d "email")
                    (tickets (snd (lookup_endpoint id e2 w'))))).
Proof.
  intros Hu Hok Hmail w'.
  assert (Hok' : store_ok (tickets w'))
    by (by apply register_keeps_store_ok).
  assert (Hmail' : NoDup (map (fun d => prop d "email") (tickets w'))).
  { subst w'.
    destruct (validateRegistration toLowerCase req) as [r|] eqn:Hv.
    { destruct (register_invalid toLowerCase req e w r Hv) as [Hr _].
      by rewrite Hr. }
    destruct (register_cases toLowerCase req e w Hv)
      as (em & f & _ & _ & _ & Hcases).
    cbv zeta in Hcases.
    destruct Hcases as [(err & ls & _ & Hr)
                       | [(existing & ls & _ & _ & Hr)
                         | (_ & _ & [(inner & ls & _ & Hr)
                                    | (up & Hup & [(err & ls & Hr)
                                                  | (_ & Hclash & ls & Hr)])])]];
      rewrite Hr; cbn [snd after tickets]; try done.
    apply NoDup_map_snoc; [done|]. unfold prop at 1.
    rewrite stored_lookup by done.
    fold (prop (built_document toLowerCase (req_body req) (next_uuid e)
                  (generateShortTicketId (next_uuid e)) up
                  (clock e (2 + ticks w)) (clock e (3 + ticks w))) "email").
    apply no_clash; [done|]. cbn. auto. }
  split; [done|]. split; [done|]. intros id e2.
  destruct (lookup_keeps_tickets id e2 w') as [-> _]. done.
Qed.

(** ** The text stored for a registrant *)

Lemma built_document_text_fields b full short up created updated :
  let d := built_document toLowerCase b full short up created updated in
  d !! "fullName"%string = Some (of_field (trim <$> fullName b))
  /\ d !! "phone"%string = Some (of_field (trim <$> phone b))
  /\ d !! "college"%string = Some (of_field (trim <$> college b))
  /\ d !! "branch"%string = Some (of_field (trim <$> branch b))
  /\ d !! "year"%string = Some (of_field (year b))
  /\ d !! "gender"%string
     = Some (of_field ((fun s => trim (toLowerCase s)) <$> gender b))
  /\ d !! "accommodation"%string = Some (of_field (accommodation b))
  /\ d !! "foodPreference"%string = Some (of_field (foodPreference b))
  /\ d !! "ticketType"%string = Some (of_field (ticketType b)).
Proof. repeat split; vm_compute; reflexivity. Qed.

Lemma printable_not_space c : 33 <= c <= 126 -> isWhiteSpace c = false.
Proof.
  intros [Hlo Hhi]. unfold isWhiteSpace.
  repeat (apply orb_false_iff; split);
    try (apply N.eqb_neq; lia);
    apply andb_false_iff; left; apply N.leb_gt; lia.
Qed.

Lemma phone_shape_no_space s :
  phone_shape s -> forallb (fun c => negb (isWhiteSpace c)) s = true.
Proof.
  intros (d & rest & -> & [Hlo Hhi] & _ & Hrest).
  rewrite forallb_app. apply andb_true_iff. split; [reflexivity|].
  cbn [forallb]. apply andb_true_iff. split.
  - apply negb_true_iff, printable_not_space.
    change (N_of_ascii "6") with 54 in Hlo.
    change (N_of_ascii "9") with 57 in Hhi. lia.
  - rewrite forallb_forall in *. intros c Hc. specialize (Hrest c Hc).
    apply negb_true_iff, printable_not_space. unfold isDigit in Hrest.
    apply andb_true_iff in Hrest as [H0 H9]. apply N.leb_le in H0, H9.
    change (N_of_ascii "0") with 48 in H0.
    change (N_of_ascii "9") with 57 in H9. lia.
Qed.

(** X10: what the collection holds for a registrant is in normal form,
    whatever letter case or blanks the form used: [gender] is exactly
    "male", "female" or "other"; [year], [accommodation],
    [foodPreference] and [ticketType] are one of their allowed words;
    [fullName], [college] and [branch] are the submitted texts trimmed and
    still hold at least two characters; [phone] is the submitted number,
    unchanged, of the form +91, a digit 6 to 9 and nine digits. *)
Theorem stored_text_is_normalised (req : request) (e : env) (w : world)
  (stored : document) :
  In stored (inserted w (snd (register_endpoint toLowerCase req e w))) ->
  (exists g, stored !! "gender"%string = Some (VStr g)
             /\ In g [lit "male"; lit "female"; lit "other"])
  /\ (exists y, stored !! "year"%string = Some (VStr y)
                /\ In y [lit "1"; lit "2"; lit "3"; lit "4"])
  /\ (exists a, stored !! "accommodation"%string = Some (VStr a)
                /\ In a [lit "yes"; lit "no"])
  /\ (exists p, stored !! "foodPreference"%string = Some (VStr p)
                /\ In p [lit "veg"; lit "non-veg"])
  /\ (exists t, stored !! "ticketType"%string = Some (VStr t)
                /\ In t [lit "ieee"; lit "non-ieee"])
  /\ (exists n, fullName (req_body req) = Some n
                /\ stored !! "fullName"%string = Some (VStr (trim n))
                /\ (2 <= length (trim n))%nat)
  /\ (exists c, college (req_body req) = Some c
                /\ stored !! "college"%string = Some (VStr (trim c))
                /\ (2 <= length (trim c))%nat)
  /\ (exists b, branch (req_body req) = Some b
                /\ stored !! "branch"%string = Some (VStr (trim b))
                /\ (2 <= length (trim b))%nat)
  /\ (exists p, phone (req_body req) = Some p
                /\ stored !! "phone"%string = Some (VStr p)
                /\ phone_shape p).
Proof.
  intros Hin.
  destruct (register_inserted toLowerCase req e w stored Hin)
    as (doc & Hcall & ->).
  destruct (register_insert_call toLowerCase req e w doc Hcall)
    as (Hv & up & _ & ->).
  pose proof (proj1 (validateRegistration_Next toLowerCase req) Hv) as Hall.
  pose proof (built_document_text_fields (req_body req) (next_uuid e)
                (generateShortTicketId (next_uuid e)) up
                (clock e (2 + ticks w)) (clock e (3 + ticks w))) as Hd.
  cbv zeta in Hd.
  destruct Hd as (Hfn & Hph & Hco & Hbr & Hy & Hg & Ha & Hfo & Htt).
  rewrite !stored_lookup by done.
  destruct (Hall RGender) as (g & Hg1 & _ & Hg2).
  destruct (Hall RYear) as (y & Hy1 & Hy2).
  destruct (Hall RAccommodation) as (a & Ha1 & Ha2).
  destruct (Hall RFoodPreference) as (fo & Hfo1 & Hfo2).
  destruct (Hall RTicketType) as (tt & Htt1 & Htt2).
  destruct (Hall RFullName) as (n & Hn1 & Hn2).
  destruct (Hall RCollege) as (c & Hc1 & Hc2).
  destruct (Hall RBranch) as (b & Hb1 & Hb2).
  destruct (Hall RPhone) as (p & Hp1 & Hp2).
  cbn [satisfies] in *.
  rewrite Hg1 in Hg. rewrite Hy1 in Hy. rewrite Ha1 in Ha.
  rewrite Hfo1 in Hfo. rewrite Htt1 in Htt. rewrite Hn1 in Hfn.
  rewrite Hc1 in Hco. rewrite Hb1 in Hbr. rewrite Hp1 in Hph.
  cbn [fmap option_fmap option_map of_field] in *.
  repeat split.
  - exists (toLowerCase g).
    assert (Hsame : trim (toLowerCase g) = toLowerCase g).
    { destruct Hg2 as [<- | [<- | [<- | []]]]; reflexivity. }
    rewrite Hsame in Hg. by split.
  - by exists y.
  - by exists a.
  - by exists fo.
  - by exists tt.
  - by exists n.
  - by exists c.
  - by exists b.
  - exists p. rewrite (trim_no_space p) in Hph
      by (by apply phone_shape_no_space).
    by repeat split.
Qed.

(** ** Running the queue of the mirror *)

Lemma sheetRow_any_world d e w1 w2 :
  fst (sheetRow toISOString d e w1) = fst (sheetRow toISOString d e w2).
Proof. unfold sheetRow. by destruct (prop d "createdAt"). Qed.

(** The append call, if any, that one queued record leads to. *)
Local Abbreviation mirror_calls e w :=
  (fun d : document =>
     match fst (sheetRow toISOString d e w) with
     | Ok row =>
         [CallSheetsAppend (of_field (GOOGLE_SHEET_ID e))
            (js_or (of_field (GOOGLE_SHEET_RANGE e)) (VStr (lit "Sheet1!A:Q")))
            row]
     | Throw _ => []
     end).

Lemma run_queue e wx queue w :
  let w1 := fold_left (fun w' d => snd (sheetsCallback toISOString d e w'))
              queue w in
  calls w1
  = calls w ++ (if sheets_configured e then flat_map (mirror_calls e wx) queue
                else [])
  /\ length (console w1) = (length (console w) + length queue)%nat.
Proof.
  revert w. induction queue as [|d queue IH]; intros w; cbn [fold_left].
  - cbn [flat_map length]. rewrite Nat.add_0_r.
    by destruct (sheets_configured e); rewrite app_nil_r.
  - destruct (sheetsCallback_run toISOString d e w)
      as (cs & ls & Hrun & Hoff & Hon).
    rewrite Hrun. cbn [snd].
    destruct (IH (after w cs ls 0)) as [Hcalls Hlines].
    rewrite Hcalls, Hlines. cbn [after calls console flat_map length].
    rewrite (sheetRow_any_world d e wx w).
    destruct (sheets_configured e).
    + specialize (Hon eq_refl).
      destruct (sheetRow toISOString d e w) as [[row | err] w0];
        destruct Hon as [-> ->]; cbn [fst];
        rewrite length_app, <- ?app_assoc; cbn [length app]; split;
        try done; lia.
    + destruct (Hoff eq_refl) as [-> ->].
      rewrite length_app, !app_nil_r. cbn [length]. split; [done | lia].
Qed.

(** X11: when the queued callbacks run, every queued record is handled
    once and in order: with the sink configured each record whose row can
    be built leads to exactly one append call carrying that row, also when
    an earlier append failed, and with the sink not configured no call is
    made; each record leaves exactly one line on the console.  The queue
    ends empty and the collection and the clock are as they were. *)
Theorem queue_is_mirrored_in_order (e : env) (w : world) :
  let w' := run_immediates toISOString e w in
  issued w w'
  = (if sheets_configured e then flat_map (mirror_calls e w) (immediates w)
     else [])
  /\ length (console w') = (length (console w) + length (immediates w))%nat
  /\ immediates w' = []
  /\ tickets w' = tickets w
  /\ ticks w' = ticks w.
Proof.
  intros w'. subst w'. unfold run_immediates.
  set (w0 := World (tickets w) (calls w) (console w) (ticks w) []).
  destruct (run_queue e w (immediates w) w0) as [Hcalls Hlines].
  destruct (run_queue_keeps_store toISOString e (immediates w) w0)
    as (Ht & Hi & Hk).
  split.
  - unfold issued. rewrite Hcalls. cbn [w0 calls].
    by rewrite skipn_app, skipn_all, Nat.sub_diag.
  - rewrite Hlines, Ht, Hi, Hk. done.
Qed.

(** X12: registration and mirror together: after a 201, with nothing else
    in the queue, running the queue with the sink configured makes exactly
    one append call, whose row has seventeen cells, starts with the ticket
    id and the short id returned to the caller and ends with the creation
    time in ISO form; with the sink not configured it makes none.  The
    record stays in the collection in both cases. *)
Theorem registration_is_mirrored_once (req : request) (e : env) (w : world)
  (reply : response) (w' : world) :
  register_endpoint toLowerCase req e w = (Ok reply, w') ->
  status reply = 201%Z ->
  immediates w = [] ->
  let w'' := run_immediates toISOString e w' in
  tickets w'' = tickets w'
  /\ (sheets_configured e = false -> issued w' w'' = [])
  /\ (sheets_configured e = true ->
      exists row,
        issued w' w''
        = [CallSheetsAppend (of_field (GOOGLE_SHEET_ID e))
             (js_or (of_field (GOOGLE_SHEET_RANGE e))
                (VStr (lit "Sheet1!A:Q"))) row]
        /\ length row = 17%nat
        /\ row !! 0%nat = Some (VStr (next_uuid e))
        /\ row !! 1%nat = Some (VStr (generateShortTicketId (next_uuid e)))
        /\ row !! 15%nat = Some (VStr (lit "pending"))
        /\ row !! 16%nat
           = Some (VStr (toISOString (clock e (2 + ticks w))))).
Proof.
  intros Hrun Hst Hq w''. subst w''.
  destruct (register_created toLowerCase req e w reply w' Hrun Hst)
    as (em & f & up & ls & _ & _ & _ & _ & _ & Hw').
  cbv zeta in Hw'.
  set (doc := built_document toLowerCase (req_body req) (next_uuid e)
                (generateShortTicketId (next_uuid e)) up
                (clock e (2 + ticks w)) (clock e (3 + ticks w))) in *.
  set (stored := <["_id"%string := VObjectId (next_objectId e)]> doc) in *.
  assert (Hqueue : immediates w' = [stored])
    by (rewrite Hw'; cbn [immediates]; by rewrite Hq).
  unfold run_immediates. rewrite Hqueue.
  set (w0 := World (tickets w') (calls w') (console w') (ticks w') []).
  destruct (run_queue e w0 [stored] w0) as [Hcalls _].
  destruct (run_queue_keeps_store toISOString e [stored] w0) as (Ht & _).
  split; [exact Ht|].
  unfold issued. rewrite Hcalls. cbn [w0 calls].
  rewrite skipn_app, skipn_all, Nat.sub_diag. cbn [skipn app flat_map].
  rewrite app_nil_r.
  split; [by intros ->|]. intros ->.
  pose proof (built_document_fields toLowerCase (req_body req)
                (next_uuid e) (generateShortTicketId (next_uuid e)) up
                (clock e (2 + ticks w)) (clock e (3 + ticks w))) as Hdoc.
  cbv zeta in Hdoc. fold doc in Hdoc.
  destruct Hdoc as (Hdt & Hds & _ & _ & _ & _ & Hdst & Hdc & _).
  assert (Hc : stored !! "createdAt"%string
               = Some (VDate (clock e (2 + ticks w))))
    by (unfold stored; by rewrite stored_lookup).
  rewrite (sheetRow_run toISOString stored _ e w0 Hc). cbn [fst].
  eexists. split; [reflexivity|]. split; [reflexivity|].
  cbn [lookup list_lookup].
  unfold stored, prop. rewrite !stored_lookup by done.
  rewrite Hdt, Hds, Hdst. done.
Qed.

(** ** The lookup route on any collection *)

Lemma matches_either_id id d :
  matches_query (QOr (QEq "ticketId" (VStr id)) (QEq "shortTicketId" (VStr id)))
    d = true
  <-> prop d "ticketId" = VStr id \/ prop d "shortTicketId" = VStr id.
Proof.
  cbn [matches_query]. unfold strict_eq.
  rewrite orb_true_iff, !bool_decide_eq_true. done.
Qed.

(** X13: the lookup route always replies, after exactly one [findOne]
    with the identifier under both keys, and changes neither the
    collection nor the queue.  When the store fails the reply is 500
    "Failed to fetch registration" with the error's message; when no
    record carries the identifier it is the 404 reply; otherwise it is 200
    with a record of the collection that carries the identifier as its
    [ticketId] or its [shortTicketId].  No reply exposes a
    [transactionScreenshotDeleteUrl]. *)
Theorem lookup_never_exposes_delete_url (id : jsstring) (e : env)
  (w : world) :
  let q :=
    QOr (QEq "ticketId" (VStr id)) (QEq "shortTicketId" (VStr id)) in
  let carries (d : document) :=
    prop d "ticketId" = VStr id \/ prop d "shortTicketId" = VStr id in
  exists reply w',
    lookup_endpoint id e w = (Ok reply, w')
    /\ issued w w' = [CallFindOne q]
    /\ tickets w' = tickets w /\ immediates w' = immediates w
    /\ ((exists err,
            findOne_fault e = Some err
            /\ reply
               = Response 500 false (Some (lit "Failed to fetch registration"))
                   None (Some (err_message err)) None)
        \/ (findOne_fault e = None /\ reply = not_found_reply
            /\ forall d, In d (tickets w) -> ~ carries d)
        \/ (findOne_fault e = None
            /\ exists d, In d (tickets w) /\ carries d
                         /\ reply = found_reply d))
    /\ (forall safe,
          data reply = Some safe ->
          safe !! "transactionScreenshotDeleteUrl"%string = None).
Proof.
  intros q carries.
  assert (Hissued : forall cs (c : call),
             skipn (length cs) (cs ++ [c]) = [c])
    by (intros cs c; by rewrite skipn_app, skipn_all, Nat.sub_diag).
  destruct (findOne_fault e) as [err|] eqn:Hfault.
  - destruct w as [ts cs ls n imm]. eexists _, _. split.
    { run. rewrite Hfault. reflexivity. }
    unfold issued. cbn [calls tickets immediates data].
    split; [apply Hissued|]. split; [done|]. split; [done|].
    split; [|done]. left. by exists err.
  - rewrite (lookup_endpoint_run id e w Hfault). cbv zeta. fold q.
    eexists _, _. split; [reflexivity|].
    unfold issued, after. cbn [calls tickets immediates].
    split; [apply Hissued|]. split; [done|]. split; [done|].
    destruct (List.find (matches_query q) (tickets w)) as [d|] eqn:Hfind.
    + apply find_some in Hfind as [Hin Hm].
      apply matches_either_id in Hm. split.
      * right. right. split; [done|]. by exists d.
      * unfold found_reply. cbn [data]. intros safe [= <-].
        apply lookup_delete_eq.
    + split; [|done]. right. left. repeat split.
      intros d Hin Hc. apply matches_either_id in Hc.
      pose proof (find_none _ _ Hfind d Hin) as Hn. fold q in Hc. congruence.
Qed.

(** ** The contract of uploadToImgBB *)

(** X14: [uploadToImgBB] posts the image exactly once and touches nothing
    else.  A result it returns always has [success] true, so the handler's
    test [!uploadResult.success] never fires; an error it throws is always
    a fresh [Error] without a code whose message is "Failed to upload image
    to ImgBB: " followed by the message of the cause, which is also
    printed, so the [catch] block of the route never takes it for a
    duplicate key. *)
Theorem upload_result_is_always_successful (image : list N)
  (name : jsstring) (e : env) (w : world) :
  let r := uploadToImgBB image name e w in
  issued w (snd r) = [CallImgBB image name]
  /\ tickets (snd r) = tickets w
  /\ immediates (snd r) = immediates w
  /\ ticks (snd r) = ticks w
  /\ match fst r with
     | Ok up =>
         up_success up = true /\ console (snd r) = console w
         /\ imgbb e
            = AxiosResolve
                (Some (ImgbbBody true (Some (up_url up, up_deleteUrl up))))
     | Throw err =>
         exists cause,
           err = Error (lit "Failed to upload image to ImgBB: "
                        ++ err_message cause)
           /\ console (snd r)
              = console w ++ [ConsoleError (MsgImgBBError (err_message cause))]
           /\ error_reply err = failure_reply (err_message err)
     end.
Proof.
  intros r. subst r. rewrite uploadToImgBB_run.
  assert (Hissued : issued w
            (World (tickets w) (calls w ++ [CallImgBB image name]) (console w)
               (ticks w) (immediates w)) = [CallImgBB image name])
    by (unfold issued; cbn [calls];
        by rewrite skipn_app, skipn_all, Nat.sub_diag).
  destruct (imgbb_outcome (imgbb e)) as [up | cause] eqn:Hout;
    cbn [fst snd tickets immediates ticks console].
  - repeat split; try done.
    + by apply (imgbb_outcome_success (imgbb e)).
    + unfold imgbb_outcome in Hout.
      destruct (imgbb e) as [err | [[ok [[url del]|]]|]]; try discriminate;
        destruct ok; try discriminate.
      by injection Hout as <-.
  - unfold issued in *. cbn [calls] in *.
    repeat split; try done.
    exists cause. repeat split.
Qed.

(** ** The file part of a submission *)


(** X16: whenever the route answers 201, the submission carried a file
    part under the field name [transactionScreenshot], of one of the four
    allowed MIME types and of at most [fileSize] bytes, and the bytes of
    that very file are what was posted to ImgBB. *)
Theorem registered_screenshot_passed_the_filter (s : submission) (e : env)
  (w : world) (printed : option thrown) (reply : response) (w' : world) :
  register_route toLowerCase s e w = (Ok (printed, reply), w') ->
  status reply = 201%Z ->
  exists p name,
    file_part s = Some p
    /\ fieldname p = lit "transactionScreenshot"
    /\ In (mimetype (content p)) allowedTypes
    /\ (N.of_nat (length (buffer (content p))) <= fileSize)%N
    /\ In (CallImgBB (buffer (content p)) name) (issued w w')
    /\ printed = None.
Proof.
  intros Hrun Hst. unfold register_route in Hrun.
  destruct (upload_single (lit "transactionScreenshot") s) as [err | req]
    eqn:Hup.
  { apply run_eq in Hrun as [Hr _].
    assert (reply = snd (errorHandler err)) as -> by congruence.
    by destruct err. }
  destruct (register_endpoint toLowerCase req e w) as [[r | err] w1]
    eqn:Hreg; cbv beta iota zeta delta [bind ret] in Hrun;
    rewrite Hreg in Hrun; [|discriminate].
  apply run_eq in Hrun as [Hr <-].
  assert (printed = None /\ reply = r) as [-> ->] by (split; congruence).
  destruct (register_created toLowerCase req e w r w1 Hreg Hst)
    as (em & f & up & ls & _ & _ & Hf & _ & _ & Hw1).
  cbv zeta in Hw1.
  unfold upload_single in Hup.
  destruct (file_part s) as [p|] eqn:Hp;
    [|injection Hup as <-; discriminate].
  destruct (negb (jsstring_eqb (fieldname p) (lit "transactionScreenshot")))
    eqn:Hname; [discriminate|].
  apply negb_false_iff, bool_decide_eq_true in Hname.
  unfold fileFilter in Hup.
  destruct (includes allowedTypes (mimetype (content p))) eqn:Hinc;
    [|discriminate].
  destruct (fileSize <? N.of_nat (length (buffer (content p))))%N eqn:Hsize;
    [discriminate|].
  injection Hup as <-. cbn [req_file] in Hf. injection Hf as <-.
  apply N.ltb_ge in Hsize.
  eexists p, _. repeat split; try done.
  - unfold includes in Hinc. apply existsb_exists in Hinc as (t & Hin & Heq).
    unfold jsstring_eqb in Heq. apply bool_decide_eq_true in Heq. by subst.
  - rewrite Hw1. unfold issued. cbn [calls].
    rewrite skipn_app, skipn_all, Nat.sub_diag. cbn [skipn app].
    right. right. left. reflexivity.
Qed.

End Further.

(** ** The further properties at work on concrete submissions *)

Lemma jane_run :
  register_endpoint asciiLower jane_request fair_env empty_world
  = (Ok (success_reply (next_uuid fair_env)
           (generateShortTicketId (next_uuid fair_env))
           (trim (asciiLower (lit "Jane@X.com")))),
     jane_world).
Proof.
  pose proof (register_success asciiLower jane_request fair_env empty_world
                (lit "Jane@X.com") screenshot) as Hrun.
  assert (Hv : validateRegistration asciiLower jane_request = Next)
    by (vm_compute; reflexivity).
  specialize (Hrun Hv eq_refl eq_refl
                (UploadResult true (lit "https://i.ibb.co/abc/proof.jpg")
                   (lit "https://ibb.co/abc/delete"))
                eq_refl eq_refl eq_refl eq_refl eq_refl).
  cbv zeta in Hrun. unfold jane_world. rewrite Hrun. reflexivity.
Qed.

(** A blank before the address is enough to be turned down. *)
Lemma email_is_checked_as_submitted_witness :
  In (rule_message REmail) (validation_errors asciiLower blank_email_request)
  /\ validateRegistration asciiLower blank_email_request <> Next.
Proof.
  apply (email_is_checked_as_submitted asciiLower blank_email_request
           (lit " jane@x.com")).
  - reflexivity.
  - left. vm_compute. reflexivity.
Defined.

(** Jane tries again with her address in capitals. *)
Lemma registered_email_is_refused_again_witness :
  fst (register_endpoint asciiLower jane_again_request fair_env jane_world)
  = Ok duplicate_email_reply
  /\ tickets
       (snd (register_endpoint asciiLower jane_again_request fair_env
               jane_world))
     = tickets jane_world.
Proof.
  assert (Hv : validateRegistration asciiLower jane_again_request = Next)
    by (vm_compute; reflexivity).
  assert (Hsame : asciiLower (lit "JANE@X.COM") = asciiLower (lit "Jane@X.com"))
    by (vm_compute; reflexivity).
  destruct (registered_email_is_refused_again asciiLower jane_request fair_env
              empty_world _ _ jane_again_request fair_env jane_world
              (lit "Jane@X.com") (lit "JANE@X.COM") asciiLower_no_space
              jane_run eq_refl eq_refl eq_refl Hv eq_refl Hsame eq_refl)
    as (Hreply & _ & Hstore & _).
  split; [exact Hreply | exact Hstore].
Defined.

(** Jane's registration is read back under her short id. *)
Lemma registration_can_be_looked_up_witness :
  exists stored,
    inserted empty_world jane_world = [stored]
    /\ fst (lookup_endpoint (generateShortTicketId (next_uuid fair_env))
              fair_env jane_world)
       = Ok (found_reply stored)
    /\ stored !! "transactionScreenshotDeleteUrl"%string
       = Some (VStr (lit "https://ibb.co/abc/delete")).
Proof.
  assert (Hu : isUuidV4 (next_uuid fair_env) = true)
    by (vm_compute; reflexivity).
  destruct (registration_can_be_looked_up asciiLower jane_request fair_env
              empty_world _ _ fair_env jane_run eq_refl store_ok_nil Hu
              eq_refl)
    as (ids & stored & safeData & up & em & _ & _ & _ & Hins & _ & Hshort & _
        & Hup & _ & _ & _ & _ & _ & Hdel & _).
  exists stored. split; [exact Hins|]. split; [exact Hshort|].
  rewrite Hdel.
  change (Ok (UploadResult true (lit "https://i.ibb.co/abc/proof.jpg")
                (lit "https://ibb.co/abc/delete")) = Ok up) in Hup.
  apply run_eq_reply in Hup. by subst up.
Defined.

(** Ravi's UUID starts like Jane's: his registration is refused. *)
Lemma short_id_collision_is_refused_witness :
  fst (register_endpoint asciiLower member_request colliding_env jane_world)
  = Ok duplicate_key_reply
  /\ tickets
       (snd (register_endpoint asciiLower member_request colliding_env
               jane_world))
     = tickets jane_world.
Proof.
  assert (Hv : validateRegistration asciiLower member_request = Next)
    by (vm_compute; reflexivity).
  assert (Hfind : List.find
                    (matches_query
                       (QEq "email" (VStr (asciiLower (lit "ravi@y.org")))))
                    (tickets jane_world) = None)
    by (vm_compute; reflexivity).
  assert (Hshort : map (fun d => d !! "shortTicketId"%string)
                     (tickets jane_world)
                   = [Some (VStr (generateShortTicketId
                                    (next_uuid fair_env)))])
    by (vm_compute; reflexivity).
  assert (Hu : isUuidV4 (next_uuid fair_env) = true)
    by (vm_compute; reflexivity).
  assert (Hu' : isUuidV4 (next_uuid colliding_env) = true)
    by (vm_compute; reflexivity).
  assert (Hin : exists d, In d (tickets jane_world)
                          /\ d !! "shortTicketId"%string
                             = Some (VStr (generateShortTicketId
                                             (next_uuid fair_env)))).
  { destruct (tickets jane_world) as [|d rest]; [discriminate Hshort|].
    cbn [map] in Hshort. injection Hshort as Hs _.
    exists d. split; [by left | exact Hs]. }
  destruct Hin as (d & Hin & Hs).
  pose proof (short_id_collision_is_refused asciiLower member_request
                colliding_env jane_world (lit "ravi@y.org")
                (UploadResult true (lit "https://i.ibb.co/abc/proof.jpg")
                   (lit "https://ibb.co/abc/delete"))
                d (next_uuid fair_env) Hv eq_refl eq_refl Hfind eq_refl
                eq_refl Hin Hs Hu Hu' eq_refl) as H.
  destruct (register_endpoint asciiLower member_request colliding_env
              jane_world) as [res w'].
  cbn [fst snd]. destruct H as (-> & _ & -> & _). split; reflexivity.
Defined.

(** The database is down when Jane submits. *)
Lemma store_failure_is_reported_witness :
  fst (register_endpoint asciiLower jane_request store_down_env empty_world)
  = Ok (failure_reply (lit "connection closed"))
  /\ tickets
       (snd (register_endpoint asciiLower jane_request store_down_env
               empty_world))
     = [].
Proof.
  assert (Hv : validateRegistration asciiLower jane_request = Next)
    by (vm_compute; reflexivity).
  pose proof (store_failure_is_reported asciiLower jane_request store_down_env
                empty_world (lit "Jane@X.com")
                (Error (lit "connection closed")) Hv eq_refl
                (or_introl eq_refl)) as H.
  destruct (register_endpoint asciiLower jane_request store_down_env
              empty_world) as [res w'].
  cbn [fst snd]. destruct H as (-> & _ & Hmsg & -> & _).
  split; [|reflexivity]. rewrite Hmsg; [reflexivity | discriminate].
Defined.

(** The collection is well keyed after Jane's registration. *)
Lemma routes_keep_keys_unique_witness :
  store_ok (tickets jane_world)
  /\ NoDup (map (fun d => prop d "email") (tickets jane_world)).
Proof.
  assert (Hu : isUuidV4 (next_uuid fair_env) = true)
    by (vm_compute; reflexivity).
  destruct (routes_keep_keys_unique asciiLower jane_request fair_env
              empty_world Hu store_ok_nil NoDup_nil_2)
    as (Hok & Hemail & _).
  split; [exact Hok | exact Hemail].
Defined.

(** Ravi typed his gender with a capital; the collection holds it in lower
    case. *)
Lemma stored_text_is_normalised_witness :
  exists stored g,
    In stored
      (inserted empty_world
         (snd (register_endpoint asciiLower member_request fair_env
                 empty_world)))
    /\ stored !! "gender"%string = Some (VStr g)
    /\ In g [lit "male"; lit "female"; lit "other"].
Proof.
  assert (Hlen : length (inserted empty_world
                           (snd (register_endpoint asciiLower member_request
                                   fair_env empty_world))) = 1%nat)
    by (vm_compute; reflexivity).
  destruct (inserted empty_world
              (snd (register_endpoint asciiLower member_request fair_env
                      empty_world))) as [|stored rest] eqn:Hl;
    [discriminate Hlen|].
  assert (Hin : In stored
                  (inserted empty_world
                     (snd (register_endpoint asciiLower member_request
                             fair_env empty_world))))
    by (rewrite Hl; by left).
  destruct (stored_text_is_normalised asciiLower member_request fair_env
              empty_world stored Hin) as ((g & Hg & Hgin) & _).
  exists stored, g. split; [by left|]. split; [exact Hg | exact Hgin].
Defined.

(** Jane's record is mirrored by one append. *)
Lemma registration_is_mirrored_once_witness :
  tickets (run_immediates isoString fair_env jane_world) = tickets jane_world
  /\ length (issued jane_world (run_immediates isoString fair_env jane_world))
     = 1%nat.
Proof.
  destruct (registration_is_mirrored_once asciiLower isoString jane_request
              fair_env empty_world _ _ jane_run eq_refl eq_refl)
    as (Hstore & _ & Hon).
  split; [exact Hstore|].
  destruct (Hon eq_refl) as (row & -> & _). reflexivity.
Defined.


(** Jane's screenshot is a JPEG of four bytes. *)
Lemma registered_screenshot_passed_the_filter_witness :
  exists p,
    file_part jane_submission = Some p
    /\ In (mimetype (content p)) allowedTypes
    /\ (N.of_nat (length (buffer (content p))) <= fileSize)%N.
Proof.
  assert (Hrun : register_route asciiLower jane_submission fair_env
                   empty_world
                 = (Ok (None,
                        success_reply (next_uuid fair_env)
                          (generateShortTicketId (next_uuid fair_env))
                          (trim (asciiLower (lit "Jane@X.com")))),
                    jane_world)).
  { unfold register_route.
    change (upload_single (lit "transactionScreenshot") jane_submission)
      with (@inr thrown request jane_request).
    cbv beta iota zeta delta [bind ret]. rewrite jane_run. reflexivity. }
  destruct (registered_screenshot_passed_the_filter asciiLower jane_submission
              fair_env empty_world _ _ _ Hrun eq_refl)
    as (p & name & Hp & _ & Htype & Hsize & _).
  exists p. split; [exact Hp|]. split; [exact Htype | exact Hsize].
Defined.
